(** * PDF study helper: the upload / quiz front-end as a state machine

    A shallow embedding of the React components of the repository
    (App.tsx, UploadSection.tsx, QuizSection.tsx, SummarySection.tsx and
    types.ts) and the properties of their state.

    Conventions.
    - A [useState] cell is a record field; a setter call is a record update.
    - A JavaScript [number] that holds an index is a [Z]; the positions
      produced by [Array.prototype.map] are [Z.of_nat i].
    - A JavaScript string is a [string] holding its UTF-8 bytes.
    - [T | null] is [option T].
    - An event handler is a function on the state; the asynchronous
      [handleFileUpload] is cut at its [await]: the part that runs before
      the request is issued, and the part that runs when the request
      settles, whose outcome is an input of the model. *)

From stdpp Require Import base list strings.
From Stdlib Require Import ZArith Lia.

Open Scope string_scope.

(** ** types.ts *)

Inductive QuizTab := basic | advanced.

Record QuizQuestion := {
  question : string;
  choices : list string;
  answer_index : Z;
  explanation : string
}.

(** The fields [basic] and [advanced]; the plain names are the two values
    of [QuizTab]. *)
Record Problems := {
  problems_basic : list QuizQuestion;
  problems_advanced : list QuizQuestion
}.

Record ProcessedData := {
  ok : bool;
  problems : Problems;
  summary_html : string;
  summary_url : option string;
  problems_url : option string
}.

Definition QuizTab_eqb (a b : QuizTab) : bool :=
  match a, b with
  | basic, basic | advanced, advanced => true
  | _, _ => false
  end.

(** [problems[activeTab]] *)
Definition problems_at (p : Problems) (tab : QuizTab) : list QuizQuestion :=
  match tab with
  | basic => problems_basic p
  | advanced => problems_advanced p
  end.

(** A string used as a condition: [undefined] and the empty string are
    falsy. *)
Definition truthy (s : option string) : bool :=
  match s with
  | Some (String _ _) => true
  | _ => false
  end.

(** ** QuizSection.tsx: QuizItem *)

Module QuizItem.

(** The two [useState] cells of one mounted QuizItem. *)
Record State := {
  selectedChoice : option Z;
  showExplanation : bool
}.

(** [useState<number | null>(null)], [useState(false)] *)
Definition initial : State :=
  {| selectedChoice := None; showExplanation := false |}.

Definition handleChoiceSelect (choiceIndex : Z) (st : State) : State :=
  {| selectedChoice := Some choiceIndex; showExplanation := true |}.

(** [selectedChoice === n] with [selectedChoice : number | null] *)
Definition strict_eq (sel : option Z) (n : Z) : bool :=
  match sel with
  | Some c => Z.eqb c n
  | None => false
  end.

Definition isCorrect (q : QuizQuestion) (st : State) : bool :=
  strict_eq (selectedChoice st) (answer_index q).

(** What one [<button>] of the choice list is rendered from. [mark] is
    the icon at the right of the button: [Some true] the check mark,
    [Some false] the cross, [None] no icon. *)
Record ChoiceButton := {
  key : nat;
  label : string;
  isSelected : bool;
  isAnswer : bool;
  showResult : bool;
  disabled : bool;
  mark : option bool
}.

(** The box under the choices: the verdict and [question.explanation]. *)
Record ExplanationBox := {
  verdict : bool;
  text : string
}.

Record View := {
  number : nat;
  prompt : string;
  buttons : list ChoiceButton;
  explanationBox : option ExplanationBox
}.

Definition render_choice (q : QuizQuestion) (st : State)
    (choiceIndex : nat) (choice : string) : ChoiceButton :=
  let isSelected := strict_eq (selectedChoice st) (Z.of_nat choiceIndex) in
  let isAnswer := Z.eqb (Z.of_nat choiceIndex) (answer_index q) in
  let showResult := showExplanation st && isSelected in
  {| key := choiceIndex;
     label := choice;
     isSelected := isSelected;
     isAnswer := isAnswer;
     showResult := showResult;
     disabled := showExplanation st;
     mark := if showResult then Some (isCorrect q st) else None |}.

Definition render (q : QuizQuestion) (index : nat) (st : State) : View :=
  {| number := index + 1;
     prompt := question q;
     buttons := imap (render_choice q st) (choices q);
     explanationBox :=
       if showExplanation st
       then Some {| verdict := isCorrect q st; text := explanation q |}
       else None |}.

(** A click on the choice button at position [c] of the rendered list:
    a button that is not rendered receives nothing, a disabled button
    fires no click, any other runs its [onClick], which is
    [handleChoiceSelect(choiceIndex)]. *)
Definition click (q : QuizQuestion) (st : State) (c : nat) : State :=
  match buttons (render q 0 st) !! c with
  | Some b =>
      if disabled b then st else handleChoiceSelect (Z.of_nat (key b)) st
  | None => st
  end.

(** The clicks of one mount, played from the initial state. *)
Definition play (q : QuizQuestion) (clicks : list nat) : State :=
  foldl (click q) initial clicks.

(** The state the first selection of choice [c] leads to. *)
Definition answered (c : nat) : State :=
  {| selectedChoice := Some (Z.of_nat c); showExplanation := true |}.

End QuizItem.

(** ** QuizSection.tsx: QuizSection *)

Module QuizSection.

(** [<QuizItem key={index} question={question} index={index} />] *)
Record Element := {
  key : nat;
  question : QuizQuestion;
  index : nat
}.

(** The scrolling area: the placeholder paragraph, or one QuizItem per
    question. *)
Inductive Body :=
  | Placeholder
  | Items (elements : list Element).

Record View := {
  basic_tab_active : bool;
  advanced_tab_active : bool;
  body : Body
}.

(** [problems[activeTab] || []]: both fields of [Problems] are arrays, and
    an array is truthy, so the fallback is never taken. *)
Definition currentProblems (problems : Problems) (activeTab : QuizTab)
    : list QuizQuestion :=
  problems_at problems activeTab.

Definition render (problems : Problems) (activeTab : QuizTab) : View :=
  let currentProblems := currentProblems problems activeTab in
  {| basic_tab_active := QuizTab_eqb activeTab basic;
     advanced_tab_active := QuizTab_eqb activeTab advanced;
     body :=
       if Nat.eqb (length currentProblems) 0
       then Placeholder
       else Items (imap (fun index question =>
                           {| key := index; question := question;
                              index := index |}) currentProblems) |}.

(** The question blocks of a rendered section. *)
Definition question_blocks (v : View) : list Element :=
  match body v with
  | Placeholder => []
  | Items elements => elements
  end.

End QuizSection.

(** ** SummarySection.tsx *)

Module SummarySection.

Record View := {
  source_link : option string;
  article : option string
}.

Definition render (summaryHtml : string) (summaryUrl : option string) : View :=
  {| source_link := if truthy summaryUrl then summaryUrl else None;
     article := if truthy (Some summaryHtml) then Some summaryHtml else None |}.

End SummarySection.

(** ** The browser around the components *)

(** A [File] of the DOM, as far as the components read it. *)
Record File := {
  name : string;
  type : string
}.

(** A value raised by [throw] or carried by a rejected promise: an object
    that is [instanceof Error], with its [message], or anything else. *)
Inductive Thrown :=
  | ErrorObject (message : string)
  | OtherValue.

(** What [response.json()] resolves to is typed [any]. The handler reads
    [ok] and [error] from it and stores it as [ProcessedData]: the fields
    of the interface, and [error], which the interface does not declare. *)
Record JsonResult := {
  result_data : ProcessedData;
  error : option string
}.

Inductive Json :=
  | json_null (type_error : string)
  | json_object (result : JsonResult).

(** How the request of one upload settles: [fetch] rejects (network
    failure), [response.json()] rejects (the body is not JSON), or the body
    parses. A body that parses to [null] makes the read of [result.ok] raise
    a TypeError, whose message is the engine's. *)
Inductive Settled :=
  | fetch_rejected (reason : Thrown)
  | json_rejected (reason : Thrown)
  | json_resolved (body : Json).

(** [String.prototype.includes] *)
Fixpoint includes (s sub : string) : bool :=
  String.prefix sub s ||
  match s with
  | EmptyString => false
  | String _ s' => includes s' sub
  end.

(** ** UploadSection.tsx *)

Module UploadSection.

Record State := {
  dragActive : bool;
  selectedFile : option File
}.

Definition initial : State :=
  {| dragActive := false; selectedFile := None |}.

Definition setDragActive (b : bool) (st : State) : State :=
  {| dragActive := b; selectedFile := selectedFile st |}.

Definition setSelectedFile (f : File) (st : State) : State :=
  {| dragActive := dragActive st; selectedFile := Some f |}.

(** [e.type] of the events [handleDrag] is registered for. *)
Inductive DragType := dragenter | dragover | dragleave.

Definition handleDrag (e_type : DragType) (st : State) : State :=
  match e_type with
  | dragenter | dragover => setDragActive true st
  | dragleave => setDragActive false st
  end.

(** [files] is [e.dataTransfer.files]; [files !! 0] is [files[0]]. *)
Definition handleDrop (files : list File) (st : State) : State :=
  let st := setDragActive false st in
  match files !! 0 with
  | Some file =>
      if String.eqb (type file) "application/pdf"
      then setSelectedFile file st
      else st
  | None => st
  end.

(** [files] is [e.target.files]. *)
Definition handleFileChange (files : list File) (st : State) : State :=
  match files !! 0 with
  | Some file => setSelectedFile file st
  | None => st
  end.

(** [handleSubmit], over any effect [M] the [onUpload] prop runs in:
    [skip] is the handler returning without a call. *)
Definition handleSubmit {M : Type} (skip : M) (onUpload : File -> M)
    (isProcessing : bool) (st : State) : M :=
  match selectedFile st with
  | Some file => if negb isProcessing then onUpload file else skip
  | None => skip
  end.

Inductive BannerStyle := banner_error | banner_done | banner_neutral.
Inductive BannerIcon := icon_alert | icon_spinner | icon_file.

Record Banner := {
  style : BannerStyle;
  icon : BannerIcon;
  message : string
}.

Record View := {
  zone_highlighted : bool;
  input_disabled : bool;
  title : string;
  choose_disabled : bool;
  submit_button : option bool;
  banner : option Banner
}.

Definition render (isProcessing : bool) (status : string) (st : State) : View :=
  {| zone_highlighted := dragActive st;
     input_disabled := isProcessing;
     title := match selectedFile st with
              | Some f => name f
              | None => "PDF 파일을 업로드하세요"
              end;
     choose_disabled := isProcessing;
     submit_button := match selectedFile st with
                      | Some _ => Some isProcessing
                      | None => None
                      end;
     banner :=
       if truthy (Some status)
       then Some {| style := if includes status "오류" then banner_error
                             else if includes status "완료" then banner_done
                             else banner_neutral;
                    icon := if includes status "오류" then icon_alert
                            else if isProcessing then icon_spinner
                            else icon_file;
                    message := status |}
       else None |}.

End UploadSection.

(** ** App.tsx *)

Module App.

Record State := {
  isProcessing : bool;
  status : string;
  data : option ProcessedData;
  activeTab : QuizTab
}.

Definition initial : State :=
  {| isProcessing := false; status := EmptyString; data := None;
     activeTab := basic |}.

(** The mounted QuizSection: the [key] it was mounted under and the state
    of its QuizItems, in the order of their own keys (the positions). *)
Record QuizMount := {
  mount_key : QuizTab;
  items : list QuizItem.State
}.

(** Everything the page consists of: the state cells of App and of
    UploadSection, the mounted quiz, the uploads whose request has not
    settled (the file posted under 'pdf'), and the number of
    [setTimeout(() => setStatus(''), 3000)] callbacks not yet run. *)
Record World := {
  app : State;
  upload : UploadSection.State;
  quiz : option QuizMount;
  pending : list File;
  timers : nat
}.

Definition initial_world : World :=
  {| app := initial; upload := UploadSection.initial; quiz := None;
     pending := []; timers := 0 |}.

Definition with_app (f : State -> State) (w : World) : World :=
  {| app := f (app w); upload := upload w; quiz := quiz w;
     pending := pending w; timers := timers w |}.

Definition with_upload (f : UploadSection.State -> UploadSection.State)
    (w : World) : World :=
  {| app := app w; upload := f (upload w); quiz := quiz w;
     pending := pending w; timers := timers w |}.

Definition with_quiz (q : option QuizMount) (w : World) : World :=
  {| app := app w; upload := upload w; quiz := q;
     pending := pending w; timers := timers w |}.

(** *** Handlers as computations that may throw *)

Inductive Completion (A : Type) :=
  | Normal (a : A)
  | Throw (e : Thrown).
Arguments Normal {A} a.
Arguments Throw {A} e.

Definition M (A : Type) : Type := World -> Completion A * World.

Definition ret {A} (a : A) : M A := fun w => (Normal a, w).

Definition bind {A B} (m : M A) (k : A -> M B) : M B :=
  fun w => match m w with
           | (Normal a, w') => k a w'
           | (Throw e, w') => (Throw e, w')
           end.

Definition throw {A} (e : Thrown) : M A := fun w => (Throw e, w).

(** [try { m } catch (error) { handler }] *)
Definition try_catch {A} (m : M A) (handler : Thrown -> M A) : M A :=
  fun w => match m w with
           | (Normal a, w') => (Normal a, w')
           | (Throw e, w') => handler e w'
           end.

(** [try { m } finally { cleanup }] *)
Definition try_finally {A} (m : M A) (cleanup : M unit) : M A :=
  fun w => match m w with
           | (r, w') => match cleanup w' with
                        | (Normal _, w'') => (r, w'')
                        | (Throw e, w'') => (Throw e, w'')
                        end
           end.

#[global] Instance M_ret : MRet M := @ret.
#[global] Instance M_bind : MBind M := fun A B k m => bind m k.

Definition setIsProcessing (b : bool) : M unit := fun w =>
  (Normal tt, with_app (fun s =>
     {| isProcessing := b; status := status s; data := data s;
        activeTab := activeTab s |}) w).

Definition setStatus (msg : string) : M unit := fun w =>
  (Normal tt, with_app (fun s =>
     {| isProcessing := isProcessing s; status := msg; data := data s;
        activeTab := activeTab s |}) w).

Definition setData (d : ProcessedData) : M unit := fun w =>
  (Normal tt, with_app (fun s =>
     {| isProcessing := isProcessing s; status := status s; data := Some d;
        activeTab := activeTab s |}) w).

Definition setActiveTab (tab : QuizTab) : M unit := fun w =>
  (Normal tt, with_app (fun s =>
     {| isProcessing := isProcessing s; status := status s; data := data s;
        activeTab := tab |}) w).

(** [fetch('/api/process', { method: 'POST', body: formData })] with the
    file appended under 'pdf': the request is issued and awaited. *)
Definition fetch_process (file : File) : M unit := fun w =>
  (Normal tt, {| app := app w; upload := upload w; quiz := quiz w;
                 pending := pending w ++ [file]; timers := timers w |}).

(** [setTimeout(() => setStatus(''), 3000)] *)
Definition setTimeout_clear_status : M unit := fun w =>
  (Normal tt, {| app := app w; upload := upload w; quiz := quiz w;
                 pending := pending w; timers := S (timers w) |}).

(** [await fetch(...)] followed by [await response.json()] *)
Definition await_json (o : Settled) : M Json :=
  match o with
  | fetch_rejected reason => throw reason
  | json_rejected reason => throw reason
  | json_resolved body => ret body
  end.

(** [result.ok] *)
Definition read_ok (result : Json) : M bool :=
  match result with
  | json_null type_error => throw (ErrorObject type_error)
  | json_object r => ret (ok (result_data r))
  end.

(** [result.error || fallback], where [result] is an object *)
Definition error_or (result : Json) (fallback : string) : string :=
  match result with
  | json_object r => if truthy (error r)
                     then default fallback (error r) else fallback
  | json_null _ => fallback
  end.

(** [setData(result)] *)
Definition store (result : Json) : M unit :=
  match result with
  | json_object r => setData (result_data r)
  | json_null _ => ret tt
  end.

(** [handleFileUpload] up to its first [await]. *)
Definition handleFileUpload (file : File) : M unit :=
  setIsProcessing true;;
  setStatus "PDF 분석 및 문제 생성 중...";;
  fetch_process file.

(** [handleFileUpload] from the moment its request settles: the [try]
    block, the [catch] clause and the [finally] clause. *)
Definition handleFileUpload_resume (o : Settled) : M unit :=
  try_finally
    (try_catch
       (result ← await_json o;
        ok ← read_ok result;
        (if negb ok
         then throw (ErrorObject (error_or result "처리 실패"))
         else ret tt);;
        store result;;
        setStatus "완료! 생성된 문제와 요약을 확인하세요.";;
        setTimeout_clear_status)
       (fun error =>
          setStatus ("오류: " +:+
                     match error with
                     | ErrorObject message => message
                     | OtherValue => "알 수 없는 오류"
                     end)))
    (setIsProcessing false).

(** *** Rendering and reconciliation *)

(** The children of the grid App renders [data && (...)]: the quiz
    section, under [key={activeTab}], and the summary section. *)
Record Results := {
  quiz_key : QuizTab;
  quiz_section : QuizSection.View;
  summary_section : SummarySection.View
}.

Record Tree := {
  upload_section : UploadSection.View;
  results : option Results
}.

(** What the function [App] returns for the state cells [s]; [u] is the
    state React keeps for the UploadSection child. *)
Definition render (s : State) (u : UploadSection.State) : Tree :=
  {| upload_section := UploadSection.render (isProcessing s) (status s) u;
     results :=
       match data s with
       | Some d =>
           Some {| quiz_key := activeTab s;
                   quiz_section := QuizSection.render (problems d) (activeTab s);
                   summary_section :=
                     SummarySection.render (summary_html d) (summary_url d) |}
       | None => None
       end |}.

(** [n] fresh QuizItems. *)
Definition fresh_items (n : nat) : list QuizItem.State :=
  replicate n QuizItem.initial.

(** The items of a section that stays mounted, when it now renders [n]
    QuizItems: React matches children by key, here the position, so an
    item keeps its state while its position is rendered, an item whose
    position is gone is unmounted, and a new position is mounted fresh. *)
Definition keep_items (n : nat) (old : list QuizItem.State)
    : list QuizItem.State :=
  take n old ++ fresh_items (n - length old).

(** React's treatment of the QuizSection element between two renders: an
    element under the same key keeps its component instance; under another
    key, or where none was rendered before, a new instance is mounted; where
    none is rendered now, the old one is unmounted. *)
Definition reconcile (old : option QuizMount) (tree : Tree)
    : option QuizMount :=
  match results tree with
  | None => None
  | Some r =>
      let n := length (QuizSection.question_blocks (quiz_section r)) in
      match old with
      | Some m =>
          if QuizTab_eqb (mount_key m) (quiz_key r)
          then Some {| mount_key := mount_key m;
                       items := keep_items n (items m) |}
          else Some {| mount_key := quiz_key r; items := fresh_items n |}
      | None => Some {| mount_key := quiz_key r; items := fresh_items n |}
      end
  end.

(** The re-render that follows a handler. *)
Definition commit (w : World) : World :=
  with_quiz (reconcile (quiz w) (render (app w) (upload w))) w.

(** The QuizItems on screen: each rendered element with the state of the
    item mounted at its position. *)
Definition question_views (w : World) : list QuizItem.View :=
  match results (render (app w) (upload w)), quiz w with
  | Some r, Some m =>
      zip_with (fun (el : QuizSection.Element) st =>
                  QuizItem.render (QuizSection.question el)
                                  (QuizSection.index el) st)
               (QuizSection.question_blocks (quiz_section r)) (items m)
  | _, _ => []
  end.

(** *** Events *)

Inductive Event :=
  | Drag (e_type : UploadSection.DragType)
  | Drop (files : list File)
  | FileChange (files : list File)
  | Submit
  | TabClick (tab : QuizTab)
  | ChoiceClick (item choice : nat)
  | UploadSettles (o : Settled)
  | TimerFires.

(** The state a computation leaves behind. *)
Definition exec {A} (m : M A) (w : World) : World := snd (m w).

(** A click on choice button [choice] of the QuizItem at position [item]. *)
Definition choice_click (item choice : nat) (w : World) : World :=
  match results (render (app w) (upload w)), quiz w with
  | Some r, Some m =>
      match QuizSection.question_blocks (quiz_section r) !! item,
            items m !! item with
      | Some el, Some st =>
          with_quiz
            (Some {| mount_key := mount_key m;
                     items := <[item := QuizItem.click
                                          (QuizSection.question el) st choice]>
                                (items m) |}) w
      | _, _ => w
      end
  | _, _ => w
  end.

(** What an event runs before the re-render.
    - The drag and drop handlers are bound to the drop zone, which has no
      [disabled] state.
    - The file input is [disabled={isProcessing}]: it emits no change event
      while disabled. Its [accept] attribute filters what the file dialog
      proposes; the user can still pick a file of any type.
    - [Submit] is the form's submit event, however it was triggered.
    - The tab buttons exist when the quiz section is rendered; their
      [onClick] is [onTabChange(tab)], that is [setActiveTab(tab)].
    - A request can settle when one is pending; the oldest settles first.
    - A timer can fire when one is pending. *)
Definition handle (e : Event) (w : World) : World :=
  match e with
  | Drag e_type => with_upload (UploadSection.handleDrag e_type) w
  | Drop files => with_upload (UploadSection.handleDrop files) w
  | FileChange files =>
      if UploadSection.input_disabled (upload_section (render (app w) (upload w)))
      then w
      else with_upload (UploadSection.handleFileChange files) w
  | Submit =>
      exec (UploadSection.handleSubmit (ret tt) handleFileUpload
              (isProcessing (app w)) (upload w)) w
  | TabClick tab =>
      match results (render (app w) (upload w)) with
      | Some _ => exec (setActiveTab tab) w
      | None => w
      end
  | ChoiceClick item choice => choice_click item choice w
  | UploadSettles o =>
      match pending w with
      | _ :: rest =>
          exec (handleFileUpload_resume o)
               {| app := app w; upload := upload w; quiz := quiz w;
                  pending := rest; timers := timers w |}
      | [] => w
      end
  | TimerFires =>
      match timers w with
      | S n =>
          exec (setStatus EmptyString)
               {| app := app w; upload := upload w; quiz := quiz w;
                  pending := pending w; timers := n |}
      | O => w
      end
  end.

(** One event: its handler, then the re-render. React re-renders before
    the next event is handled, so a handler reads the state cells as the
    previous event left them. *)
Definition dispatch (w : World) (e : Event) : World := commit (handle e w).

(** The page after the events [es], from the first render. *)
Definition run (es : list Event) : World := foldl dispatch initial_world es.

(** The outcomes on the failure path of an upload. *)
Definition failed (o : Settled) : bool :=
  match o with
  | fetch_rejected _ | json_rejected _ => true
  | json_resolved (json_null _) => true
  | json_resolved (json_object r) => negb (ok (result_data r))
  end.

Definition other_tab (tab : QuizTab) : QuizTab :=
  match tab with
  | basic => advanced
  | advanced => basic
  end.

(** *** Invariants of the page *)

(** The mounted quiz is the one the current render asks for: none without
    data, otherwise one under the active tab with one item per question. *)
Definition quiz_mounted (w : World) : Prop :=
  match data (app w), quiz w with
  | None, None => True
  | Some d, Some m =>
      mount_key m = activeTab (app w)
      /\ length (items m) = length (problems_at (problems d) (activeTab (app w)))
  | _, _ => False
  end.

(** [isProcessing] is set exactly while one request is pending. *)
Definition processing_tracks_pending (w : World) : Prop :=
  (isProcessing (app w) = false /\ pending w = [])
  \/ (isProcessing (app w) = true /\ exists file, pending w = [file]).

(** Only a response whose [ok] is truthy is ever stored. *)
Definition stored_ok (w : World) : Prop :=
  forall d, data (app w) = Some d -> ok d = true.

Definition invariant (w : World) : Prop :=
  quiz_mounted w /\ processing_tracks_pending w /\ stored_ok w.

(** A QuizItem as it looks before any selection. *)
Definition unanswered (v : QuizItem.View) : Prop :=
  QuizItem.explanationBox v = None
  /\ Forall (fun b => QuizItem.isSelected b = false
                       /\ QuizItem.disabled b = false
                       /\ QuizItem.mark b = None) (QuizItem.buttons v).

End App.

(** ** Sample data *)

Module Sample.

Definition two_plus_two : QuizQuestion :=
  {| question := "2+2?"; choices := ["3"; "4"]; answer_index := 1;
     explanation := "basic math" |}.

Definition capital : QuizQuestion :=
  {| question := "Capital of France?"; choices := ["Rome"; "Paris"; "Oslo"];
     answer_index := 1; explanation := "Paris is the capital." |}.

(** A successful response: one basic question, two advanced ones. *)
Definition response : ProcessedData :=
  {| ok := true;
     problems := {| problems_basic := [two_plus_two];
                    problems_advanced := [capital; two_plus_two] |};
     summary_html := "<p>Hi</p>";
     summary_url := None;
     problems_url := None |}.

Definition success : Settled :=
  json_resolved (json_object {| result_data := response; error := None |}).

(** A failure response: [ok] false and an [error] message. *)
Definition rejected : JsonResult :=
  {| result_data := {| ok := false;
                       problems := {| problems_basic := [];
                                      problems_advanced := [] |};
                       summary_html := EmptyString;
                       summary_url := None;
                       problems_url := None |};
     error := Some "PDF has no text" |}.

Definition failure : Settled := json_resolved (json_object rejected).

Definition lecture_pdf : File :=
  {| name := "lecture.pdf"; type := "application/pdf" |}.

Definition other_pdf : File :=
  {| name := "other.pdf"; type := "application/pdf" |}.

Definition notes_txt : File :=
  {| name := "notes.txt"; type := "text/plain" |}.

(** A page on which an upload succeeded and the first basic question was
    answered. *)
Definition answered_page : list App.Event :=
  [App.FileChange [lecture_pdf]; App.Submit; App.UploadSettles success;
   App.ChoiceClick 0 1].

(** A page on which an upload is in progress. *)
Definition uploading_page : list App.Event :=
  [App.FileChange [lecture_pdf]; App.Submit].

End Sample.

(** ** Sample scenarios *)

Module Scenario.
Import App.

(** A second response, with another basic question. *)
Definition second_result : JsonResult :=
  {| result_data :=
       {| ok := true;
          problems := {| problems_basic := [Sample.capital];
                         problems_advanced := [] |};
          summary_html := "<p>Again</p>";
          summary_url := Some "https://example.org/source";
          problems_url := None |};
     error := None |}.

(** The first basic question is answered and the file is submitted again. *)
Definition resubmitted_page : list Event :=
  Sample.answered_page ++ [Submit].

(** The second upload fails while the timer of the first is still armed. *)
Definition failed_after_success : list Event :=
  resubmitted_page ++ [UploadSettles Sample.failure].

(** Files reach the page through the drop zone only. *)
Definition dropped_only : list Event :=
  [Drag UploadSection.dragenter; Drop [Sample.notes_txt];
   Drag UploadSection.dragover; Drop [Sample.lecture_pdf]; Submit].

(** An upload fails before any has succeeded. *)
Definition failed_first : list Event :=
  Sample.uploading_page ++ [UploadSettles Sample.failure; TabClick advanced].

End Scenario.

(** ** Classes of events and of pages *)

Module Trace.
Import App.

(** The events of the drop zone and of the file input. *)
Definition selects_file (e : Event) : bool :=
  match e with
  | Drag _ | Drop _ | FileChange _ => true
  | _ => false
  end.

(** The change events of the file input. *)
Definition from_dialog (e : Event) : bool :=
  match e with
  | FileChange _ => true
  | _ => false
  end.

(** The settling of an upload on the success path. *)
Definition is_success (e : Event) : bool :=
  match e with
  | UploadSettles o => negb (failed o)
  | _ => false
  end.

(** [file.type === 'application/pdf'] *)
Definition is_pdf (file : File) : bool :=
  String.eqb (type file) "application/pdf".

(** The status texts App sets, each with the value [isProcessing] has while
    it is shown: none, the in-progress text, the completion text, or an
    error text. *)
Definition status_known (s : State) : Prop :=
  status s = EmptyString
  \/ (status s = "PDF 분석 및 문제 생성 중..." /\ isProcessing s = true)
  \/ (status s = "완료! 생성된 문제와 요약을 확인하세요."
      /\ isProcessing s = false)
  \/ (exists msg, status s = "오류: " +:+ msg /\ isProcessing s = false).

(** The banner of the upload section for the state cells [s]. *)
Definition banner_of (w : World) : option UploadSection.Banner :=
  UploadSection.banner (upload_section (render (app w) (upload w))).

End Trace.

(** * Properties *)

Lemma QuizTab_eqb_eq a b : QuizTab_eqb a b = true <-> a = b.
Proof. destruct a, b; simpl; split; congruence. Qed.

Lemma QuizTab_eqb_refl a : QuizTab_eqb a a = true.
Proof. by destruct a. Qed.

Lemma QuizTab_eqb_other a : QuizTab_eqb a (App.other_tab a) = false.
Proof. by destruct a. Qed.

(** ** One QuizItem *)

Section quiz_item.
Import QuizItem.
Variable q : QuizQuestion.

Lemma buttons_lookup index st c :
  buttons (render q index st) !! c = render_choice q st c <$> choices q !! c.
Proof. apply list_lookup_imap. Qed.

(** A click does nothing once the explanation is shown or where no button
    is; otherwise it answers the question with the clicked choice. *)
Lemma click_unfold st c :
  click q st c =
    if showExplanation st then st
    else match choices q !! c with
         | Some _ => answered c
         | None => st
         end.
Proof.
  unfold click. rewrite buttons_lookup.
  destruct (choices q !! c) as [choice|]; simpl; [|by destruct (showExplanation st)].
  by destruct (showExplanation st).
Qed.

Lemma click_answered c c' : click q (answered c) c' = answered c.
Proof. by rewrite click_unfold. Qed.

Lemma play_answered c clicks : foldl (click q) (answered c) clicks = answered c.
Proof.
  induction clicks as [|c' clicks IH]; simpl; [done|].
  by rewrite click_answered.
Qed.

(** Every state a mount passes through is the initial one or the answer
    with one of the rendered choices. *)
Lemma play_cases clicks :
  play q clicks = initial
  \/ exists c, c < length (choices q) /\ play q clicks = answered c.
Proof.
  unfold play.
  induction clicks as [|c clicks IH] using rev_ind; [by left|].
  rewrite foldl_app. simpl.
  destruct IH as [-> | (c0 & Hc0 & ->)].
  - rewrite click_unfold. simpl.
    destruct (choices q !! c) as [choice|] eqn:Hc; [|by left].
    right. exists c. split; [|done]. by eapply lookup_lt_Some.
  - right. exists c0. by rewrite click_answered.
Qed.

Lemma strict_eq_true sel n : strict_eq sel n = true <-> sel = Some n.
Proof.
  destruct sel as [c|]; simpl; [|split; congruence].
  rewrite Z.eqb_eq. split; congruence.
Qed.

(** ** C1 *)

(** C1. For every question and every sequence of choice clicks within one
    mount of a QuizItem: the stored selection is nothing or the index of
    one rendered choice; at most one rendered button is the selected one;
    and whenever a correctness indicator is shown (the verdict of the
    explanation box, the mark on a button), a selection is stored and the
    indicator is positive exactly when the stored index equals the
    question's [answer_index]. *)
Theorem quiz_item_single_selection_and_verdict (index : nat) (clicks : list nat) :
  let st := play q clicks in
  let v := render q index st in
  (selectedChoice st = None
   \/ exists c, c < length (choices q) /\ selectedChoice st = Some (Z.of_nat c))
  /\ (forall i j bi bj,
        buttons v !! i = Some bi -> buttons v !! j = Some bj ->
        isSelected bi = true -> isSelected bj = true -> i = j)
  /\ (forall box,
        explanationBox v = Some box ->
        exists c, selectedChoice st = Some c
                  /\ (verdict box = true <-> c = answer_index q))
  /\ (forall b m,
        b ∈ buttons v -> mark b = Some m ->
        exists c, selectedChoice st = Some c
                  /\ (m = true <-> c = answer_index q)).
Proof.
  intros st v. subst v.
  assert (Hverdict : showExplanation st = true ->
            exists c, selectedChoice st = Some c
                      /\ (isCorrect q st = true <-> c = answer_index q)).
  { subst st. destruct (play_cases clicks) as [-> | (c & _ & ->)]; [done|].
    intros _. exists (Z.of_nat c). split; [done|].
    unfold isCorrect. rewrite strict_eq_true. simpl. split; congruence. }
  split; [|split; [|split]].
  - subst st. destruct (play_cases clicks) as [-> | (c & Hc & ->)]; [by left|].
    right. by exists c.
  - intros i j bi bj. rewrite !buttons_lookup.
    destruct (choices q !! i) as [ci|]; [|done].
    destruct (choices q !! j) as [cj|]; [|done]. simpl.
    intros [= <-] [= <-]. simpl. rewrite !strict_eq_true.
    intros -> [= Hij]. lia.
  - intros box. simpl.
    destruct (showExplanation st) eqn:Hshow; [|done].
    intros [= <-]. simpl. by apply Hverdict.
  - intros b m Hb. simpl in Hb.
    apply elem_of_lookup_imap_1 in Hb as (i & choice & -> & _). simpl.
    destruct (showExplanation st) eqn:Hshow; simpl; [|done].
    destruct (strict_eq _ _); [|done].
    intros [= <-]. by apply Hverdict.
Qed.

(** ** C6 *)

(** C6. The state machine of one question is unanswered -> answered and
    one-way. A mount starts unanswered, with every choice button enabled and
    no explanation. The click on a rendered choice [c] moves it to the
    answered state with [c] selected, and the same render shows the
    explanation text, the verdict (selected choice compared with
    [answer_index]) and the mark on button [c]. From then on every button is
    disabled and no sequence of clicks changes the state. *)
Theorem quiz_item_one_way (index c : nat) (before later : list nat) :
  Forall (fun c' => length (choices q) <= c') before ->
  c < length (choices q) ->
  let st0 := play q before in
  let st1 := play q (before ++ [c]) in
  let v1 := render q index st1 in
  (st0 = initial
   /\ explanationBox (render q index st0) = None
   /\ Forall (fun b => disabled b = false /\ mark b = None)
             (buttons (render q index st0)))
  /\ (st1 = answered c
      /\ explanationBox v1 =
           Some {| verdict := Z.eqb (Z.of_nat c) (answer_index q);
                   text := explanation q |}
      /\ (mark <$> buttons v1 !! c)
           = Some (Some (Z.eqb (Z.of_nat c) (answer_index q)))
      /\ Forall (fun b => disabled b = true) (buttons v1))
  /\ play q (before ++ [c] ++ later) = st1.
Proof.
  intros Hbefore Hc st0 st1 v1.
  assert (H0 : st0 = initial).
  { subst st0. unfold play. clear st1 v1.
    induction before as [|c' before IH] using rev_ind; [done|].
    rewrite Forall_app, Forall_singleton in Hbefore.
    destruct Hbefore as [Hbefore Hc'].
    rewrite foldl_app. simpl. rewrite (IH Hbefore), click_unfold. simpl.
    by rewrite (lookup_ge_None_2 _ _ Hc'). }
  assert (H1 : st1 = answered c).
  { subst st1. unfold play. rewrite foldl_app. simpl.
    fold (play q before). fold st0. rewrite H0, click_unfold. simpl.
    by destruct (lookup_lt_is_Some_2 (choices q) c Hc) as [choice ->]. }
  split; [|split].
  - split; [done|]. rewrite H0. split; [done|].
    apply Forall_forall. intros b Hb. simpl in Hb.
    by apply elem_of_lookup_imap_1 in Hb as (i & choice & -> & _).
  - split; [done|]. subst v1. rewrite H1. split; [done|]. split.
    + rewrite buttons_lookup.
      destruct (lookup_lt_is_Some_2 (choices q) c Hc) as [choice ->]. simpl.
      unfold isCorrect. simpl. by rewrite Z.eqb_refl.
    + apply Forall_forall. intros b Hb. simpl in Hb.
      by apply elem_of_lookup_imap_1 in Hb as (i & choice & -> & _).
  - unfold play. rewrite app_assoc, foldl_app.
    fold (play q (before ++ [c])). fold st1. rewrite H1.
    apply play_answered.
Qed.

End quiz_item.

(** ** Strings *)

Lemma prefix_app (a s : string) : String.prefix a (a +:+ s) = true.
Proof.
  induction a as [|c a IH]; simpl; [by destruct s|].
  by destruct (Ascii.ascii_dec c c).
Qed.

Lemma prefix_inv (a s : string) :
  String.prefix a s = true -> exists post, s = a +:+ post.
Proof.
  revert s. induction a as [|c a IH]; intros s; simpl.
  - intros _. by exists s.
  - destruct s as [|c' s]; simpl; [done|].
    destruct (Ascii.ascii_dec c c') as [->|]; [|done].
    intros H. destruct (IH _ H) as [post ->]. by exists post.
Qed.

Lemma includes_prefix (s sub : string) :
  String.prefix sub s = true -> includes s sub = true.
Proof. intros H. destruct s; cbn [includes]; by rewrite H. Qed.

Lemma includes_app_l (pre s sub : string) :
  includes s sub = true -> includes (pre +:+ s) sub = true.
Proof.
  intros H. induction pre as [|c pre IH]; [done|].
  change (String c pre +:+ s) with (String c (pre +:+ s)).
  cbn [includes]. rewrite IH. apply orb_true_r.
Qed.

(** [includes] finds exactly the substrings. *)
Lemma includes_spec (s sub : string) :
  includes s sub = true <-> exists pre post, s = pre +:+ sub +:+ post.
Proof.
  split.
  - induction s as [|c s IH]; cbn [includes].
    + rewrite orb_false_r. intros H. apply prefix_inv in H as [post ->].
      by exists EmptyString, post.
    + intros [H|H]%orb_true_iff.
      * apply prefix_inv in H as [post ->]. by exists EmptyString, post.
      * destruct (IH H) as (pre & post & ->). by exists (String c pre), post.
  - intros (pre & post & ->). apply includes_app_l, includes_prefix, prefix_app.
Qed.

(** Unfolds the upload handler down to its state updates. *)
Ltac unfold_handler :=
  unfold App.handleFileUpload_resume, App.handleFileUpload, App.try_finally,
    App.try_catch, mbind, App.M_bind, App.bind;
  simpl.

(** ** Rendering and reconciliation *)

Section page.
Import App.

Lemma question_blocks_length (p : Problems) (tab : QuizTab) :
  length (QuizSection.question_blocks (QuizSection.render p tab))
  = length (problems_at p tab).
Proof.
  unfold QuizSection.question_blocks, QuizSection.render,
    QuizSection.currentProblems. simpl.
  destruct (Nat.eqb_spec (length (problems_at p tab)) 0) as [H0|_]; simpl.
  - by rewrite H0.
  - apply length_imap.
Qed.

Lemma keep_items_length n old : length (keep_items n old) = n.
Proof.
  unfold keep_items, fresh_items.
  rewrite length_app, length_take, length_replicate. lia.
Qed.

Lemma keep_items_id old : keep_items (length old) old = old.
Proof.
  unfold keep_items, fresh_items.
  rewrite firstn_all, Nat.sub_diag. apply app_nil_r.
Qed.

Lemma commit_frame w :
  app (commit w) = app w /\ upload (commit w) = upload w
  /\ pending (commit w) = pending w /\ timers (commit w) = timers w.
Proof. done. Qed.

(** Whatever was mounted, after the re-render the mounted quiz is the one
    the render asks for. *)
Lemma commit_mounted w : quiz_mounted (commit w).
Proof.
  unfold quiz_mounted, commit, reconcile, render. simpl.
  destruct (data (app w)) as [d|]; simpl; [|done].
  rewrite question_blocks_length.
  destruct (quiz w) as [m|]; simpl.
  - destruct (QuizTab_eqb (mount_key m) (activeTab (app w))) eqn:Hkey; simpl.
    + apply QuizTab_eqb_eq in Hkey. split; [done|]. apply keep_items_length.
    + split; [done|]. apply length_replicate.
  - split; [done|]. apply length_replicate.
Qed.

(** A re-render of an unchanged page changes nothing. *)
Lemma commit_id w : quiz_mounted w -> commit w = w.
Proof.
  destruct w as [s u qz pend tm].
  unfold quiz_mounted, commit, with_quiz, reconcile, render. simpl.
  destruct (data s) as [d|]; simpl; destruct qz as [[k its]|]; simpl;
    try done.
  rewrite question_blocks_length. intros [-> <-].
  by rewrite QuizTab_eqb_refl, keep_items_id.
Qed.

(** ** The upload handler *)

(** On the failure path the handler returns normally; it has changed
    [status], to the error prefix followed by a message, and
    [isProcessing], and nothing else. *)
Lemma resume_failed (o : Settled) (w : World) :
  failed o = true ->
  exists msg,
    handleFileUpload_resume o w =
      (Normal tt,
       with_app (fun s => {| isProcessing := false;
                             status := "오류: " +:+ msg;
                             data := data s;
                             activeTab := activeTab s |}) w).
Proof.
  destruct o as [[m|]|[m|]|[m|r]]; simpl; intros Hfail;
    try (eexists; reflexivity).
  apply negb_true_iff in Hfail.
  unfold_handler. rewrite Hfail. simpl. eexists; reflexivity.
Qed.

(** On the success path the handler returns normally, having stored the
    response, set the completion message and armed the timer. *)
Lemma resume_succeeded (r : JsonResult) (w : World) :
  ok (result_data r) = true ->
  handleFileUpload_resume (json_resolved (json_object r)) w =
    (Normal tt,
     {| app := {| isProcessing := false;
                  status := "완료! 생성된 문제와 요약을 확인하세요.";
                  data := Some (result_data r);
                  activeTab := activeTab (app w) |};
        upload := upload w; quiz := quiz w; pending := pending w;
        timers := S (timers w) |}).
Proof.
  intros Hok. unfold_handler. by rewrite Hok.
Qed.

Lemma failed_or_succeeded (o : Settled) :
  failed o = true
  \/ exists r, o = json_resolved (json_object r) /\ ok (result_data r) = true.
Proof.
  destruct o as [e|e|[m|r]]; simpl; try by left.
  destruct (ok (result_data r)) eqn:Hok; [right; by exists r | by left].
Qed.

(** ** Invariants *)

Lemma handle_invariant (e : Event) (w : World) :
  processing_tracks_pending w -> stored_ok w ->
  processing_tracks_pending (handle e w) /\ stored_ok (handle e w).
Proof.
  intros Hp Hok. destruct e; simpl; try done.
  - by destruct (isProcessing (app w)).
  - unfold UploadSection.handleSubmit.
    destruct (UploadSection.selectedFile (upload w)) as [file|]; [|done].
    destruct Hp as [[Hproc Hpend]|[Hproc Hpend]]; rewrite Hproc; simpl;
      [|by split; [right|]].
    split; [|done]. right. split; [done|]. exists file.
    unfold exec, handleFileUpload. simpl. by rewrite Hpend.
  - by destruct (data (app w)).
  - unfold choice_click. repeat case_match; by split.
  - destruct (pending w) as [|file rest] eqn:Hpend; [done|].
    assert (rest = []) as ->.
    { destruct Hp as [[_ Hp]|[_ [file' Hp]]]; congruence. }
    unfold exec.
    destruct (failed_or_succeeded o) as [Hfail|(r & -> & Hr)].
    + destruct (resume_failed o
                  {| app := app w; upload := upload w; quiz := quiz w;
                     pending := []; timers := timers w |} Hfail)
        as [msg ->].
      simpl. split; [by left|done].
    + rewrite resume_succeeded by done. simpl. split; [by left|].
      intros d [= <-]. done.
  - destruct (timers w); [done|]. simpl. done.
Qed.

Lemma dispatch_invariant (e : Event) (w : World) :
  invariant w -> invariant (dispatch w e).
Proof.
  intros (_ & Hp & Hok).
  destruct (handle_invariant e w Hp Hok) as [Hp' Hok'].
  split; [apply commit_mounted|]. done.
Qed.

Lemma run_snoc es e : run (es ++ [e]) = dispatch (run es) e.
Proof. unfold run. by rewrite foldl_app. Qed.

(** Every page reached from the first render satisfies the invariants. *)
Lemma run_invariant (es : list Event) : invariant (run es).
Proof.
  induction es as [|e es IH] using rev_ind.
  - split; [done|]. split; [by left|]. by intros d.
  - rewrite run_snoc. by apply dispatch_invariant.
Qed.

End page.

(** ** Claims about the page *)

Section claims.
Import App.

Lemma append_empty_r (s : string) : s +:+ EmptyString = s.
Proof.
  induction s as [|c s IH]; [done|].
  change (String c (s +:+ EmptyString) = String c s). by f_equal.
Qed.

Lemma render_initial_unanswered (q : QuizQuestion) (index : nat) :
  unanswered (QuizItem.render q index QuizItem.initial).
Proof.
  split; [done|]. apply Forall_forall. intros b Hb. simpl in Hb.
  by apply elem_of_lookup_imap_1 in Hb as (i & choice & -> & _).
Qed.

(** On a page that satisfies the invariants there is one QuizItem on screen
    per question of the active tab. *)
Lemma question_views_length (w : World) (d : ProcessedData) :
  quiz_mounted w -> data (app w) = Some d ->
  length (question_views w)
  = length (problems_at (problems d) (activeTab (app w))).
Proof.
  unfold quiz_mounted, question_views, render. simpl. intros Hm Hd.
  rewrite Hd in *. simpl. destruct (quiz w) as [m|]; [|done].
  destruct Hm as [_ Hlen].
  rewrite length_zip_with, question_blocks_length. lia.
Qed.

(** ** C8 *)

(** C8. On every page reached with a stored response [d]: [d.ok] is true,
    the quiz section is rendered with exactly
    [problems[activeTab].length] question blocks, that many QuizItems are
    on screen, and an empty question list gives none. *)
Theorem quiz_renders_one_block_per_question
    (es : list Event) (d : ProcessedData) :
  let w := run es in
  data (app w) = Some d ->
  ok d = true
  /\ (exists r,
        results (render (app w) (upload w)) = Some r
        /\ quiz_key r = activeTab (app w)
        /\ length (QuizSection.question_blocks (quiz_section r))
           = length (problems_at (problems d) (activeTab (app w))))
  /\ length (question_views w)
     = length (problems_at (problems d) (activeTab (app w)))
  /\ (problems_at (problems d) (activeTab (app w)) = [] ->
      question_views w = []).
Proof.
  intros w Hd. destruct (run_invariant es) as (Hm & _ & Hok). fold w in Hm, Hok.
  pose proof (question_views_length w d Hm Hd) as Hlen.
  split; [by apply Hok|]. split; [|split; [done|]].
  - unfold render. simpl. rewrite Hd. eexists. split; [done|]. simpl.
    split; [done|]. apply question_blocks_length.
  - intros Hnil. rewrite Hnil in Hlen. by apply nil_length_inv.
Qed.

(** ** C7 *)

(** C7. On every page reached with a stored response, a click on the tab
    that is not the active one, in either direction, makes it the active
    tab and remounts the quiz under the new key: every QuizItem of the newly
    shown set is fresh, so nothing is selected, every choice is enabled
    and no explanation or mark is shown; there is one such item per
    question of the new tab, and the stored response is untouched. *)
Theorem tab_switch_remounts_quiz (es : list Event) (d : ProcessedData) :
  let w := run es in
  let tab := other_tab (activeTab (app w)) in
  let w' := dispatch w (TabClick tab) in
  data (app w) = Some d ->
  activeTab (app w') = tab
  /\ data (app w') = Some d
  /\ quiz w' = Some {| mount_key := tab;
                       items := fresh_items
                                  (length (problems_at (problems d) tab)) |}
  /\ length (question_views w')
     = length (problems_at (problems d) tab)
  /\ Forall unanswered (question_views w').
Proof.
  intros w tab w' Hd. destruct (run_invariant es) as (Hm & _ & _). fold w in Hm.
  assert (Hw' : w' = {| app := {| isProcessing := isProcessing (app w);
                                  status := status (app w);
                                  data := Some d;
                                  activeTab := tab |};
                        upload := upload w;
                        quiz := Some {| mount_key := tab;
                                        items := fresh_items
                                          (length (problems_at (problems d) tab)) |};
                        pending := pending w; timers := timers w |}).
  { subst w'. unfold dispatch, handle, render. simpl. rewrite Hd.
    unfold commit, reconcile, render, exec, with_quiz. simpl. rewrite Hd. simpl.
    rewrite question_blocks_length.
    unfold quiz_mounted in Hm. rewrite Hd in Hm.
    destruct (quiz w) as [m|]; [|done]. destruct Hm as [-> _]. subst tab.
    by rewrite QuizTab_eqb_other. }
  rewrite Hw'. split; [done|]. split; [done|]. split; [done|].
  unfold question_views, render. simpl. split.
  - rewrite length_zip_with, question_blocks_length.
    unfold fresh_items. rewrite length_replicate. lia.
  - unfold fresh_items. rewrite zip_with_replicate_r_eq
      by apply question_blocks_length.
    apply Forall_fmap, Forall_forall. intros el _.
    apply render_initial_unanswered.
Qed.

(** ** C9 *)

(** C9. On every page reached, an upload that settles on the failure path
    (the request fails, the body is not JSON or is [null], or the response
    has a falsy [ok]) leaves the stored response as it was; the active tab,
    the upload component, the mounted quiz with its answers, the rendered
    quiz and summary sections and the QuizItems on screen are unchanged
    too. *)
Theorem failed_upload_keeps_data (es : list Event) (o : Settled) :
  let w := run es in
  let w' := dispatch w (UploadSettles o) in
  failed o = true ->
  data (app w') = data (app w)
  /\ activeTab (app w') = activeTab (app w)
  /\ upload w' = upload w
  /\ quiz w' = quiz w
  /\ results (render (app w') (upload w'))
     = results (render (app w) (upload w))
  /\ question_views w' = question_views w.
Proof.
  intros w w' Hfail. destruct (run_invariant es) as (Hm & _ & _). fold w in Hm.
  subst w'. unfold dispatch, handle.
  destruct (pending w) as [|file rest]; [by rewrite commit_id|].
  unfold exec.
  destruct (resume_failed o
              {| app := app w; upload := upload w; quiz := quiz w;
                 pending := rest; timers := timers w |} Hfail) as [msg ->].
  rewrite commit_id by exact Hm. done.
Qed.

(** ** C10 *)

(** C10. Whatever state the handler resumes in and however the request
    settled, [handleFileUpload] returns normally and leaves [isProcessing]
    false. On every page reached on which [isProcessing] is true a request
    is pending, and when it settles, with any outcome, the page has
    [isProcessing] false and no request pending. *)
Theorem upload_always_resets_processing
    (es : list Event) (o : Settled) (w0 : World) :
  (exists w1,
     handleFileUpload_resume o w0 = (Normal tt, w1)
     /\ isProcessing (app w1) = false)
  /\ let w := run es in
     let w' := dispatch w (UploadSettles o) in
     (isProcessing (app w) = true ->
      pending w <> [] /\ isProcessing (app w') = false /\ pending w' = []).
Proof.
  assert (Hresume : forall w, exists w1,
            handleFileUpload_resume o w = (Normal tt, w1)
            /\ isProcessing (app w1) = false /\ pending w1 = pending w).
  { intros w. destruct (failed_or_succeeded o) as [Hfail|(r & -> & Hr)].
    - destruct (resume_failed o w Hfail) as [msg ->]. by eexists.
    - rewrite resume_succeeded by done. by eexists. }
  split.
  - destruct (Hresume w0) as (w1 & H1 & H2 & _). by exists w1.
  - intros w w' Hproc. destruct (run_invariant es) as (_ & Hp & _). fold w in Hp.
    destruct Hp as [[Hproc' _]|[_ [file Hpend]]]; [congruence|].
    split; [by rewrite Hpend|].
    subst w'. unfold dispatch, handle. rewrite Hpend.
    destruct (Hresume {| app := app w; upload := upload w; quiz := quiz w;
                         pending := []; timers := timers w |})
      as (w1 & H1 & H2 & H3).
    unfold exec. rewrite H1. simpl. done.
Qed.

(** ** C4 *)

(** C4. On every page reached at most one upload request is pending. While
    [isProcessing] is true a submission of the form changes nothing: no
    second request is issued and nothing is queued. While it is false no
    request is pending. *)
Theorem single_upload_in_flight (es : list Event) :
  let w := run es in
  length (pending w) <= 1
  /\ (isProcessing (app w) = true -> dispatch w Submit = w)
  /\ (isProcessing (app w) = false -> pending w = []).
Proof.
  intros w. destruct (run_invariant es) as (Hm & Hp & _). fold w in Hm, Hp.
  split; [|split].
  - destruct Hp as [[_ ->]|[_ [file ->]]]; simpl; lia.
  - intros Hproc. unfold dispatch, handle, UploadSection.handleSubmit.
    rewrite Hproc. simpl.
    destruct (UploadSection.selectedFile (upload w)); by apply commit_id.
  - intros Hproc. destruct Hp as [[_ Hpend]|[Hproc' _]]; [done|congruence].
Qed.

(** ** C3 *)

(** C3. When the response has a falsy [ok] and carries the error string
    [msg], the handler returns normally (nothing escapes the [catch]) and
    the status is the error prefix followed by [msg], or by the fallback
    text when [msg] is empty; the status contains [msg], starts with the
    error prefix, and the upload section shows it in its error banner. *)
Theorem error_response_shown_in_status
    (w : World) (r : JsonResult) (msg : string) :
  ok (result_data r) = false ->
  error r = Some msg ->
  exists w',
    handleFileUpload_resume (json_resolved (json_object r)) w = (Normal tt, w')
    /\ status (app w')
       = "오류: " +:+ (if truthy (Some msg) then msg else "처리 실패")
    /\ includes (status (app w')) msg = true
    /\ String.prefix "오류: " (status (app w')) = true
    /\ UploadSection.banner (upload_section (render (app w') (upload w')))
       = Some {| UploadSection.style := UploadSection.banner_error;
                 UploadSection.icon := UploadSection.icon_alert;
                 UploadSection.message := status (app w') |}.
Proof.
  intros Hok Herr.
  set (shown := if truthy (Some msg) then msg else "처리 실패").
  set (w' := with_app (fun s => {| isProcessing := false;
                                   status := "오류: " +:+ shown;
                                   data := data s;
                                   activeTab := activeTab s |}) w).
  assert (Hstatus : status (app w') = "오류: " +:+ shown) by reflexivity.
  assert (Herror : includes ("오류: " +:+ shown) "오류" = true).
  { apply includes_prefix. apply (prefix_app "오류" (": " +:+ shown)). }
  exists w'. split; [|rewrite Hstatus; split; [done|]; split; [|split]].
  - unfold_handler. rewrite Hok. simpl. by rewrite Herr.
  - apply includes_spec. subst shown.
    destruct msg as [|c msg].
    + by exists ("오류: " +:+ "처리 실패"), EmptyString.
    + exists "오류: ", EmptyString. simpl. by rewrite append_empty_r.
  - apply (prefix_app "오류: " shown).
  - unfold render, UploadSection.render.
    cbn [upload_section UploadSection.banner]. rewrite Hstatus.
    change (truthy (Some ("오류: " +:+ shown))) with true. cbv iota.
    by rewrite Herror.
Qed.

(** ** C2 *)

(** A dropped file that is not a PDF is ignored: the drop has the effect of
    a drop without files, which ends the drag highlight and keeps the
    selected file. *)
Lemma handleDrop_ignores_non_pdf (file : File) (files : list File)
    (st : UploadSection.State) :
  String.eqb (type file) "application/pdf" = false ->
  UploadSection.handleDrop (file :: files) st = UploadSection.handleDrop [] st
  /\ UploadSection.selectedFile (UploadSection.handleDrop (file :: files) st)
     = UploadSection.selectedFile st.
Proof. intros Hty. unfold UploadSection.handleDrop. simpl. by rewrite Hty. Qed.

(** C2. A file that is not a PDF is rejected when dropped, but not when it
    comes from the file dialog: the same text file that a drop leaves
    unselected becomes the selected file through [handleFileChange], and its
    name becomes the title of the upload zone. *)
Theorem file_dialog_stores_non_pdf :
  type Sample.notes_txt <> "application/pdf"
  /\ UploadSection.selectedFile (upload (run [Drop [Sample.notes_txt]])) = None
  /\ UploadSection.selectedFile (upload (run [FileChange [Sample.notes_txt]]))
     = Some Sample.notes_txt
  /\ (let w := run [FileChange [Sample.notes_txt]] in
      UploadSection.title (upload_section (render (app w) (upload w))))
     = "notes.txt".
Proof. repeat split; done. Qed.

(** ** C5 *)

(** While an upload is in progress the file dialog and the submission are
    without effect. *)
Lemma dialog_and_submit_blocked_during_upload
    (es : list Event) (files : list File) :
  let w := run es in
  isProcessing (app w) = true ->
  dispatch w (FileChange files) = w /\ dispatch w Submit = w.
Proof.
  intros w Hproc. destruct (run_invariant es) as (Hm & _ & _). fold w in Hm.
  unfold dispatch, handle, UploadSection.handleSubmit. simpl. rewrite Hproc.
  simpl. destruct (UploadSection.selectedFile (upload w));
    split; by apply commit_id.
Qed.

(** C5. The drop zone stays live while an upload is in progress: with the
    upload of one file pending and [isProcessing] true, a drag over the
    zone sets the highlight and the drop of another PDF replaces the
    selected file. *)
Theorem drop_during_upload_changes_selection :
  let w := run Sample.uploading_page in
  let w' := dispatch w (Drop [Sample.other_pdf]) in
  (isProcessing (app w) = true
   /\ pending w = [Sample.lecture_pdf]
   /\ upload w = {| UploadSection.dragActive := false;
                    UploadSection.selectedFile := Some Sample.lecture_pdf |})
  /\ (isProcessing (app w') = true
      /\ pending w' = [Sample.lecture_pdf]
      /\ UploadSection.selectedFile (upload w') = Some Sample.other_pdf)
  /\ UploadSection.dragActive
       (upload (dispatch w (Drag UploadSection.dragenter))) = true.
Proof. repeat split; done. Qed.

(** ** Answers across the events of the page *)

Lemma keep_items_lookup n old i (st st' : QuizItem.State) :
  old !! i = Some st -> keep_items n old !! i = Some st' -> st' = st.
Proof.
  intros Hold Hkept.
  assert (i < n) as Hi.
  { apply lookup_lt_Some in Hkept. by rewrite keep_items_length in Hkept. }
  unfold keep_items in Hkept. rewrite lookup_app_l in Hkept.
  - rewrite lookup_take_lt in Hkept by done. congruence.
  - apply lookup_lt_Some in Hold. rewrite length_take. lia.
Qed.

(** A handler leaves an answered item as it is. *)
Lemma handle_keeps_answered (e : Event) (w : World) (m : QuizMount)
    (i : nat) (st : QuizItem.State) :
  quiz w = Some m -> items m !! i = Some st ->
  QuizItem.showExplanation st = true ->
  exists m', quiz (handle e w) = Some m'
             /\ mount_key m' = mount_key m /\ items m' !! i = Some st.
Proof.
  intros Hm Hi Hshown.
  assert (Hsame : forall x, quiz x = quiz w ->
            exists m', quiz x = Some m'
                       /\ mount_key m' = mount_key m /\ items m' !! i = Some st).
  { intros x ->. by exists m. }
  destruct e; simpl; try by apply Hsame.
  - by destruct (isProcessing (app w)); apply Hsame.
  - unfold UploadSection.handleSubmit.
    destruct (UploadSection.selectedFile (upload w)), (isProcessing (app w));
      by apply Hsame.
  - destruct (data (app w)); by apply Hsame.
  - unfold choice_click. rewrite Hm.
    destruct (results _) as [r|]; [|by apply Hsame].
    destruct (_ !! item) as [el|]; [|by apply Hsame].
    destruct (items m !! item) as [st0|] eqn:Hitem; [|by apply Hsame].
    eexists. split; [done|]. split; [done|]. simpl.
    destruct (decide (item = i)) as [->|Hne].
    + rewrite Hi in Hitem. injection Hitem as <-.
      rewrite click_unfold, Hshown.
      apply list_lookup_insert_eq. by eapply lookup_lt_Some.
    + by rewrite list_lookup_insert_ne.
  - destruct (pending w) as [|file rest]; [by apply Hsame|].
    unfold exec. destruct (failed_or_succeeded o) as [Hfail|(r & -> & Hr)].
    + destruct (resume_failed o
                  {| app := app w; upload := upload w; quiz := quiz w;
                     pending := rest; timers := timers w |} Hfail)
        as [msg ->].
      by apply Hsame.
    + rewrite resume_succeeded by done. by apply Hsame.
  - destruct (timers w); by apply Hsame.
Qed.

(** Within one mount of the quiz section, no event of the page (a click on
    any choice, a tab click, a drag, drop, file choice or submission, the
    settling of an upload, a timer) changes an answered item that stays on
    screen. *)
Lemma answered_item_persists (es : list Event) (e : Event) (i : nat)
    (m m' : QuizMount) (st st' : QuizItem.State) :
  let w := run es in
  let w' := dispatch w e in
  quiz w = Some m -> items m !! i = Some st ->
  QuizItem.showExplanation st = true ->
  activeTab (app w') = activeTab (app w) ->
  quiz w' = Some m' -> items m' !! i = Some st' ->
  st' = st.
Proof.
  intros w w' Hm Hi Hshown Htab Hm' Hi'.
  destruct (run_invariant es) as (Hmounted & _). fold w in Hmounted.
  destruct (handle_keeps_answered e w m i st Hm Hi Hshown)
    as (mx & Hmx & Hkey & Hix).
  assert (Hkey' : mount_key mx = activeTab (app (handle e w))).
  { rewrite Hkey. unfold quiz_mounted in Hmounted. rewrite Hm in Hmounted.
    destruct (data (app w)); [|done]. destruct Hmounted as [-> _].
    symmetry. exact Htab. }
  subst w'. unfold dispatch, commit, with_quiz, reconcile, render in Hm'.
  simpl in Hm'. rewrite Hmx in Hm'.
  destruct (data (app (handle e w))) as [d|]; [|done]. simpl in Hm'.
  rewrite Hkey', QuizTab_eqb_refl in Hm'. injection Hm' as <-.
  simpl in Hi'. by eapply keep_items_lookup.
Qed.

End claims.

(** ** The claims on the sample data *)

Section witnesses.
Import App.

(** After choice 1 and then choice 0 of the sample question are clicked,
    choice 1 is the stored one and the verdict is positive. *)
Lemma quiz_item_single_selection_and_verdict_witness :
  exists c,
    QuizItem.selectedChoice (QuizItem.play Sample.two_plus_two [1; 0]) = Some c
    /\ (true = true <-> c = answer_index Sample.two_plus_two).
Proof.
  destruct (quiz_item_single_selection_and_verdict Sample.two_plus_two 0 [1; 0])
    as (_ & _ & Hbox & _).
  exact (Hbox {| QuizItem.verdict := true; QuizItem.text := "basic math" |}
              eq_refl).
Defined.

(** A click beside the two choices, then choice 1, then choice 0. *)
Lemma quiz_item_one_way_witness :
  Forall (fun c' => length (choices Sample.two_plus_two) <= c') [5]
  /\ 1 < length (choices Sample.two_plus_two)
  /\ QuizItem.play Sample.two_plus_two ([5] ++ [1] ++ [0])
     = QuizItem.play Sample.two_plus_two ([5] ++ [1]).
Proof.
  assert (H5 : Forall (fun c' => length (choices Sample.two_plus_two) <= c') [5]).
  { apply Forall_singleton. simpl. lia. }
  assert (H1 : 1 < length (choices Sample.two_plus_two)) by (simpl; lia).
  split; [exact H5|]. split; [exact H1|].
  exact (proj2 (proj2 (quiz_item_one_way Sample.two_plus_two 0 1 [5] [0] H5 H1))).
Defined.

Lemma quiz_renders_one_block_per_question_witness :
  data (app (run Sample.answered_page)) = Some Sample.response
  /\ length (question_views (run Sample.answered_page)) = 1.
Proof.
  split; [reflexivity|].
  exact (proj1 (proj2 (proj2
    (quiz_renders_one_block_per_question Sample.answered_page Sample.response
       eq_refl)))).
Defined.

Lemma tab_switch_remounts_quiz_witness :
  data (app (run Sample.answered_page)) = Some Sample.response
  /\ Forall unanswered
       (question_views (dispatch (run Sample.answered_page) (TabClick advanced))).
Proof.
  split; [reflexivity|].
  exact (proj2 (proj2 (proj2 (proj2
    (tab_switch_remounts_quiz Sample.answered_page Sample.response eq_refl))))).
Defined.

Lemma failed_upload_keeps_data_witness :
  failed Sample.failure = true
  /\ data (app (dispatch
                  (run (Sample.answered_page ++ [Submit]))
                  (UploadSettles Sample.failure)))
     = Some Sample.response.
Proof.
  split; [reflexivity|].
  exact (proj1 (failed_upload_keeps_data (Sample.answered_page ++ [Submit])
                  Sample.failure eq_refl)).
Defined.

Lemma upload_always_resets_processing_witness :
  isProcessing (app (run Sample.uploading_page)) = true
  /\ isProcessing (app (dispatch (run Sample.uploading_page)
                                 (UploadSettles Sample.failure))) = false.
Proof.
  split; [reflexivity|].
  exact (proj1 (proj2 (proj2
    (upload_always_resets_processing Sample.uploading_page Sample.failure
       initial_world) eq_refl))).
Defined.

Lemma single_upload_in_flight_witness :
  isProcessing (app (run Sample.uploading_page)) = true
  /\ dispatch (run Sample.uploading_page) Submit = run Sample.uploading_page.
Proof.
  split; [reflexivity|].
  exact (proj1 (proj2 (single_upload_in_flight Sample.uploading_page)) eq_refl).
Defined.

Lemma error_response_shown_in_status_witness :
  ok (result_data Sample.rejected) = false
  /\ error Sample.rejected = Some "PDF has no text"
  /\ exists w',
       handleFileUpload_resume Sample.failure (run Sample.uploading_page)
       = (Normal tt, w')
       /\ status (app w') = "오류: PDF has no text".
Proof.
  split; [reflexivity|]. split; [reflexivity|].
  destruct (error_response_shown_in_status (run Sample.uploading_page)
              Sample.rejected "PDF has no text" eq_refl eq_refl)
    as (w' & Hrun & Hstatus & _).
  exists w'. split; [exact Hrun | exact Hstatus].
Defined.

End witnesses.

(** * Further properties of the components *)

(** ** QuizItem and QuizSection *)

Section quiz_render.
Import QuizItem.

(** X1. A positive verdict can be reached exactly for a question whose
    [answer_index] is the position of one of its choices; for any other
    question every selection is judged wrong. *)
Theorem correct_verdict_iff_answer_in_range (q : QuizQuestion) (index : nat) :
  (exists clicks box,
     explanationBox (render q index (play q clicks)) = Some box
     /\ verdict box = true)
  <-> (0 <= answer_index q < Z.of_nat (length (choices q)))%Z.
Proof.
  split.
  - intros (clicks & box & Hbox & Hverdict).
    destruct (play_cases q clicks) as [H|(c & Hc & H)]; rewrite H in Hbox;
      [done|].
    simpl in Hbox. injection Hbox as <-. simpl in Hverdict.
    unfold isCorrect in Hverdict. simpl in Hverdict.
    apply Z.eqb_eq in Hverdict. lia.
  - intros Hrange. exists [Z.to_nat (answer_index q)]. eexists.
    unfold play. simpl. rewrite click_unfold. simpl.
    destruct (lookup_lt_is_Some_2 (choices q) (Z.to_nat (answer_index q)))
      as [choice ->]; [lia|].
    simpl. split; [done|]. simpl. unfold isCorrect. simpl.
    apply Z.eqb_eq. lia.
Qed.

(** The choice buttons are the choices in their order: button [i] carries
    choice [i] as its label and [i] as its key, whatever the state. *)
Lemma buttons_follow_choices (q : QuizQuestion) (index : nat) (st : State) :
  label <$> buttons (render q index st) = choices q
  /\ key <$> buttons (render q index st) = seq 0 (length (choices q)).
Proof.
  split; apply list_eq; intros i; rewrite list_lookup_fmap, buttons_lookup.
  - by destruct (choices q !! i).
  - destruct (choices q !! i) as [choice|] eqn:Hi; simpl.
    + symmetry. apply lookup_seq. split; [done|]. by eapply lookup_lt_Some.
    + symmetry. apply lookup_seq_ge. by apply lookup_ge_None.
Qed.

(** The question blocks are the questions of the active tab, each with its
    position, also when there is none. *)
Lemma question_blocks_imap (p : Problems) (tab : QuizTab) :
  QuizSection.question_blocks (QuizSection.render p tab)
  = imap (fun index question =>
            {| QuizSection.key := index; QuizSection.question := question;
               QuizSection.index := index |}) (problems_at p tab).
Proof.
  unfold QuizSection.question_blocks, QuizSection.render,
    QuizSection.currentProblems. simpl.
  destruct (Nat.eqb_spec (length (problems_at p tab)) 0) as [H0|_]; [|done].
  simpl. by rewrite (nil_length_inv _ H0).
Qed.

Lemma question_blocks_lookup (p : Problems) (tab : QuizTab) (i : nat) :
  QuizSection.question_blocks (QuizSection.render p tab) !! i
  = (fun question => {| QuizSection.key := i; QuizSection.question := question;
                        QuizSection.index := i |}) <$> problems_at p tab !! i.
Proof. rewrite question_blocks_imap. apply list_lookup_imap. Qed.

(** X2. The quiz section shows the placeholder exactly when the active tab has
    no question; otherwise it lists the questions of the active tab in
    their order, each under its position as key and index. Exactly one tab
    button is the active one, the one of [activeTab]. *)
Theorem quiz_section_lists_active_tab (p : Problems) (tab : QuizTab) :
  let v := QuizSection.render p tab in
  (QuizSection.body v = QuizSection.Placeholder <-> problems_at p tab = [])
  /\ QuizSection.question <$> QuizSection.question_blocks v = problems_at p tab
  /\ QuizSection.index <$> QuizSection.question_blocks v
     = seq 0 (length (problems_at p tab))
  /\ QuizSection.key <$> QuizSection.question_blocks v
     = seq 0 (length (problems_at p tab))
  /\ QuizSection.basic_tab_active v = QuizTab_eqb tab basic
  /\ QuizSection.advanced_tab_active v = negb (QuizSection.basic_tab_active v).
Proof.
  intros v. subst v.
  assert (Hseq : forall (proj : QuizSection.Element -> nat),
            (forall i question,
               proj {| QuizSection.key := i; QuizSection.question := question;
                       QuizSection.index := i |} = i) ->
            proj <$> QuizSection.question_blocks (QuizSection.render p tab)
            = seq 0 (length (problems_at p tab))).
  { intros proj Hproj. apply list_eq. intros i.
    rewrite list_lookup_fmap, question_blocks_lookup.
    destruct (problems_at p tab !! i) eqn:Hi; simpl; symmetry.
    - rewrite Hproj. apply lookup_seq. split; [done|]. by eapply lookup_lt_Some.
    - apply lookup_seq_ge. by apply lookup_ge_None. }
  split; [|split; [|split; [|split; [|split]]]].
  - unfold QuizSection.render, QuizSection.currentProblems. simpl.
    destruct (problems_at p tab) as [|q0 qs]; simpl; [done|].
    split; discriminate.
  - apply list_eq. intros i.
    rewrite list_lookup_fmap, question_blocks_lookup.
    by destruct (problems_at p tab !! i).
  - by apply Hseq.
  - by apply Hseq.
  - done.
  - by destruct tab.
Qed.

End quiz_render.

(** ** The status text and its banner *)

Section status_facts.
Import App Trace.

(** An error text is shown in the error banner, with the alert icon. *)
Lemma error_banner (b : bool) (msg : string) (u : UploadSection.State) :
  UploadSection.banner (UploadSection.render b ("오류: " +:+ msg) u)
  = Some {| UploadSection.style := UploadSection.banner_error;
            UploadSection.icon := UploadSection.icon_alert;
            UploadSection.message := "오류: " +:+ msg |}.
Proof.
  unfold UploadSection.render. cbn [UploadSection.banner].
  assert (Herror : includes ("오류: " +:+ msg) "오류" = true).
  { apply includes_prefix. apply (prefix_app "오류" (": " +:+ msg)). }
  change (truthy (Some ("오류: " +:+ msg))) with true. cbv iota.
  by rewrite Herror.
Qed.

Lemma status_known_same (s s' : State) :
  status s' = status s -> isProcessing s' = isProcessing s ->
  status_known s -> status_known s'.
Proof. unfold status_known. by intros -> ->. Qed.

Lemma handle_status_known (e : Event) (w : World) :
  processing_tracks_pending w ->
  status_known (app w) -> status_known (app (handle e w)).
Proof.
  intros Hp Hs. destruct e; simpl; try done.
  - by destruct (isProcessing (app w)).
  - unfold UploadSection.handleSubmit.
    destruct (UploadSection.selectedFile (upload w)) as [file|]; [|done].
    destruct (isProcessing (app w)) eqn:Hproc; simpl; [done|].
    right. left. done.
  - destruct (data (app w)); [|done]. by eapply status_known_same.
  - unfold choice_click. repeat case_match; done.
  - destruct (pending w) as [|file rest]; [done|]. unfold exec.
    destruct (failed_or_succeeded o) as [Hfail|(r & -> & Hr)].
    + destruct (resume_failed o
                  {| app := app w; upload := upload w; quiz := quiz w;
                     pending := rest; timers := timers w |} Hfail)
        as [msg ->].
      right. right. right. by exists msg.
    + rewrite resume_succeeded by done. right. right. left. done.
  - destruct (timers w); [done|]. by left.
Qed.

Lemma run_status_known (es : list Event) : status_known (app (run es)).
Proof.
  induction es as [|e es IH] using rev_ind; [by left|].
  rewrite run_snoc. destruct (run_invariant es) as (_ & Hp & _).
  by apply handle_status_known.
Qed.

(** X10. On every page reached the status is one of the four texts App sets,
    and the banner follows from it: no banner without a text; the
    in-progress text is shown only while [isProcessing] is true, in the
    neutral style with the spinner; the completion text only while it is
    false, in the completion style with the file icon; an error text only
    while it is false, in the error style with the alert icon. *)
Theorem status_and_banner_agree (es : list Event) :
  let w := run es in
  (status (app w) = EmptyString /\ banner_of w = None)
  \/ (status (app w) = "PDF 분석 및 문제 생성 중..."
      /\ isProcessing (app w) = true
      /\ banner_of w
         = Some {| UploadSection.style := UploadSection.banner_neutral;
                   UploadSection.icon := UploadSection.icon_spinner;
                   UploadSection.message := status (app w) |})
  \/ (status (app w) = "완료! 생성된 문제와 요약을 확인하세요."
      /\ isProcessing (app w) = false
      /\ banner_of w
         = Some {| UploadSection.style := UploadSection.banner_done;
                   UploadSection.icon := UploadSection.icon_file;
                   UploadSection.message := status (app w) |})
  \/ (exists msg,
        status (app w) = "오류: " +:+ msg
        /\ isProcessing (app w) = false
        /\ banner_of w
           = Some {| UploadSection.style := UploadSection.banner_error;
                     UploadSection.icon := UploadSection.icon_alert;
                     UploadSection.message := status (app w) |}).
Proof.
  intros w. unfold banner_of, render. cbn [upload_section].
  destruct (run_status_known es) as [H|[[H Hp]|[[H Hp]|(msg & H & Hp)]]];
    fold w in H; try fold w in Hp.
  - left. split; [done|]. by rewrite H.
  - right. left. split; [done|]. split; [done|]. by rewrite H, Hp.
  - right. right. left. split; [done|]. split; [done|]. by rewrite H, Hp.
  - right. right. right. exists msg. split; [done|]. split; [done|].
    rewrite H. apply error_banner.
Qed.

(** X11. Every failure of an upload is reported the same way: the handler
    returns normally, the status is the error prefix followed by a message,
    it is shown in the error banner, and nothing but [status] and
    [isProcessing] has changed. The message is the [message] of the Error
    that was raised; it is the unknown-error text when the rejection value is
    not an Error, and the fallback text when a response with a falsy [ok]
    carries no [error], or an empty one. *)
Theorem every_failure_is_shown_as_error (w : World) (o : Settled) :
  failed o = true ->
  exists w' msg,
    handleFileUpload_resume o w = (Normal tt, w')
    /\ app w' = {| isProcessing := false;
                   status := "오류: " +:+ msg;
                   data := data (app w);
                   activeTab := activeTab (app w) |}
    /\ (upload w' = upload w /\ quiz w' = quiz w
        /\ pending w' = pending w /\ timers w' = timers w)
    /\ banner_of w'
       = Some {| UploadSection.style := UploadSection.banner_error;
                 UploadSection.icon := UploadSection.icon_alert;
                 UploadSection.message := "오류: " +:+ msg |}
    /\ match o with
       | fetch_rejected (ErrorObject m) | json_rejected (ErrorObject m)
       | json_resolved (json_null m) => msg = m
       | fetch_rejected OtherValue | json_rejected OtherValue =>
           msg = "알 수 없는 오류"
       | json_resolved (json_object r) =>
           match error r with
           | Some (String c m) => msg = String c m
           | _ => msg = "처리 실패"
           end
       end.
Proof.
  intros Hfail.
  assert (Hshape : forall msg,
            handleFileUpload_resume o w =
              (Normal tt,
               with_app (fun s => {| isProcessing := false;
                                     status := "오류: " +:+ msg;
                                     data := data s;
                                     activeTab := activeTab s |}) w) ->
            exists w' msg',
              handleFileUpload_resume o w = (Normal tt, w')
              /\ app w' = {| isProcessing := false;
                             status := "오류: " +:+ msg';
                             data := data (app w);
                             activeTab := activeTab (app w) |}
              /\ (upload w' = upload w /\ quiz w' = quiz w
                  /\ pending w' = pending w /\ timers w' = timers w)
              /\ banner_of w'
                 = Some {| UploadSection.style := UploadSection.banner_error;
                           UploadSection.icon := UploadSection.icon_alert;
                           UploadSection.message := "오류: " +:+ msg' |}
              /\ msg' = msg).
  { intros msg ->. eexists _, msg. split; [done|]. split; [done|].
    split; [done|]. split; [|done]. apply error_banner. }
  destruct o as [[m|]|[m|]|[m|r]]; simpl in Hfail.
  - destruct (Hshape m eq_refl) as (w' & msg & H1 & H2 & H3 & H4 & ->).
    by exists w', m.
  - destruct (Hshape "알 수 없는 오류" eq_refl)
      as (w' & msg & H1 & H2 & H3 & H4 & ->).
    by eexists w', _.
  - destruct (Hshape m eq_refl) as (w' & msg & H1 & H2 & H3 & H4 & ->).
    by exists w', m.
  - destruct (Hshape "알 수 없는 오류" eq_refl)
      as (w' & msg & H1 & H2 & H3 & H4 & ->).
    by eexists w', _.
  - destruct (Hshape m eq_refl) as (w' & msg & H1 & H2 & H3 & H4 & ->).
    by exists w', m.
  - apply negb_true_iff in Hfail.
    destruct (error r) as [[|c m]|] eqn:Herr.
    + destruct (Hshape "처리 실패") as (w' & msg & H1 & H2 & H3 & H4 & ->).
      { unfold_handler. rewrite Hfail. simpl. by rewrite Herr. }
      by eexists w', _.
    + destruct (Hshape (String c m)) as (w' & msg & H1 & H2 & H3 & H4 & ->).
      { unfold_handler. rewrite Hfail. simpl. by rewrite Herr. }
      by eexists w', _.
    + destruct (Hshape "처리 실패") as (w' & msg & H1 & H2 & H3 & H4 & ->).
      { unfold_handler. rewrite Hfail. simpl. by rewrite Herr. }
      by eexists w', _.
Qed.

End status_facts.

(** ** The upload component along the events *)

Section upload_facts.
Import App Trace.

(** The world a settling request resumes the handler in. *)
Lemma handle_settles (o : Settled) (w : World) (file : File) (rest : list File) :
  pending w = file :: rest ->
  handle (UploadSettles o) w
  = exec (handleFileUpload_resume o)
         {| app := app w; upload := upload w; quiz := quiz w;
            pending := rest; timers := timers w |}.
Proof. intros Hpend. simpl. by rewrite Hpend. Qed.

(** No handler but those of the drop zone and of the file input writes a
    state cell of the upload section. *)
Lemma handle_upload_frame (e : Event) (w : World) :
  selects_file e = false -> upload (handle e w) = upload w.
Proof.
  destruct e; simpl; try done; intros _.
  - unfold UploadSection.handleSubmit.
    by destruct (UploadSection.selectedFile (upload w)), (isProcessing (app w)).
  - by destruct (data (app w)).
  - unfold choice_click. repeat case_match; done.
  - destruct (pending w) as [|file rest]; [done|]. unfold exec.
    destruct (failed_or_succeeded o) as [Hfail|(r & -> & Hr)].
    + by destruct (resume_failed o
                     {| app := app w; upload := upload w; quiz := quiz w;
                        pending := rest; timers := timers w |} Hfail)
        as [msg ->].
    + by rewrite resume_succeeded.
  - by destruct (timers w).
Qed.

(** X12. The events of the drop zone and of the file input stay inside the
    upload section: on every page reached they leave the state cells of
    App, the mounted quiz, the pending requests and the timers as they
    were. A drop always ends the drag highlight, also when it is ignored;
    a drag sets the highlight on entering or moving over the zone and clears
    it on leaving. *)
Theorem file_selection_events_stay_local (es : list Event) (e : Event) :
  let w := run es in
  let w' := dispatch w e in
  selects_file e = true ->
  (app w' = app w /\ quiz w' = quiz w
   /\ pending w' = pending w /\ timers w' = timers w)
  /\ match e with
     | Drop _ | Drag UploadSection.dragleave =>
         UploadSection.dragActive (upload w') = false
     | Drag _ => UploadSection.dragActive (upload w') = true
     | _ => UploadSection.dragActive (upload w')
            = UploadSection.dragActive (upload w)
     end.
Proof.
  intros w w' Hsel. destruct (run_invariant es) as (Hm & _). fold w in Hm.
  assert (Happ : app (handle e w) = app w /\ quiz (handle e w) = quiz w
                 /\ pending (handle e w) = pending w
                 /\ timers (handle e w) = timers w).
  { destruct e; try done. simpl. by destruct (isProcessing (app w)). }
  destruct Happ as (Happ & Hquiz & Hpend & Htimers).
  assert (Hm' : quiz_mounted (handle e w)).
  { unfold quiz_mounted. by rewrite Happ, Hquiz. }
  subst w'. unfold dispatch. rewrite (commit_id _ Hm').
  split; [done|].
  destruct e as [[]|files|files| | | | |]; try done; simpl.
  - unfold UploadSection.handleDrop. simpl.
    destruct files as [|file files]; [done|]. simpl.
    by destruct (String.eqb (type file) "application/pdf").
  - destruct (isProcessing (app w)); [done|]. simpl.
    unfold UploadSection.handleFileChange. by destruct (files !! 0).
Qed.

Lemma dispatch_keeps_selection (e : Event) (w : World) :
  is_Some (UploadSection.selectedFile (upload w)) ->
  is_Some (UploadSection.selectedFile (upload (dispatch w e))).
Proof.
  intros Hsel. unfold dispatch.
  destruct (commit_frame (handle e w)) as (_ & -> & _).
  destruct (selects_file e) eqn:He; [|by rewrite handle_upload_frame].
  destruct e as [[]|files|files| | | | |]; try done; simpl.
  - unfold UploadSection.handleDrop. simpl.
    destruct (files !! 0) as [file|]; [|done].
    by destruct (String.eqb (type file) "application/pdf").
  - destruct (isProcessing (app w)); [done|]. simpl.
    unfold UploadSection.handleFileChange. by destruct (files !! 0).
Qed.

(** X13. Nothing resets the selected file: once a file is selected, some file
    stays selected after any further events, including the completion of
    its upload. *)
Theorem selected_file_is_never_cleared (es later : list Event) :
  is_Some (UploadSection.selectedFile (upload (run es))) ->
  is_Some (UploadSection.selectedFile (upload (run (es ++ later)))).
Proof.
  intros Hsel. induction later as [|e later IH] using rev_ind.
  - by rewrite app_nil_r.
  - rewrite app_assoc, run_snoc. by apply dispatch_keeps_selection.
Qed.

(** X14. On every page reached on which no upload is in progress, the
    submission of the form with a file selected issues one request, for
    that file, sets [isProcessing] and the in-progress text, and changes
    nothing else. *)
Theorem submit_uploads_selected_file (es : list Event) (file : File) :
  let w := run es in
  let w' := dispatch w Submit in
  isProcessing (app w) = false ->
  UploadSection.selectedFile (upload w) = Some file ->
  pending w' = [file]
  /\ app w' = {| isProcessing := true;
                 status := "PDF 분석 및 문제 생성 중...";
                 data := data (app w);
                 activeTab := activeTab (app w) |}
  /\ upload w' = upload w /\ quiz w' = quiz w /\ timers w' = timers w.
Proof.
  intros w w' Hproc Hsel.
  destruct (run_invariant es) as (Hm & Hp & _). fold w in Hm, Hp.
  assert (Hpend : pending w = []).
  { destruct Hp as [[_ H]|[H _]]; [done|congruence]. }
  assert (Hw : handle Submit w
               = {| app := {| isProcessing := true;
                              status := "PDF 분석 및 문제 생성 중...";
                              data := data (app w);
                              activeTab := activeTab (app w) |};
                    upload := upload w; quiz := quiz w;
                    pending := [file]; timers := timers w |}).
  { simpl. unfold UploadSection.handleSubmit. rewrite Hsel, Hproc. simpl.
    unfold exec. unfold_handler. by rewrite Hpend. }
  subst w'. unfold dispatch. rewrite Hw. by rewrite commit_id.
Qed.

(** X15. Without a selected file a submission does nothing. *)
Theorem submit_without_file_does_nothing (es : list Event) :
  let w := run es in
  UploadSection.selectedFile (upload w) = None ->
  dispatch w Submit = w.
Proof.
  intros w Hsel. destruct (run_invariant es) as (Hm & _). fold w in Hm.
  unfold dispatch, handle, UploadSection.handleSubmit. rewrite Hsel.
  by apply commit_id.
Qed.

(** What the drop zone alone lets through. *)
Lemma dispatch_pdf_only (e : Event) (w : World) :
  from_dialog e = false ->
  (forall f, UploadSection.selectedFile (upload w) = Some f -> is_pdf f = true) ->
  Forall (fun f => is_pdf f = true) (pending w) ->
  (forall f, UploadSection.selectedFile (upload (dispatch w e)) = Some f ->
             is_pdf f = true)
  /\ Forall (fun f => is_pdf f = true) (pending (dispatch w e)).
Proof.
  intros He Hsel Hpend. unfold dispatch.
  destruct (commit_frame (handle e w)) as (_ & -> & -> & _).
  destruct e as [t|files|files| | | |o|]; try done; simpl.
  - by destruct t.
  - split; [|done]. unfold UploadSection.handleDrop. simpl.
    destruct (files !! 0) as [file|]; [|done].
    destruct (String.eqb (type file) "application/pdf") eqn:Hty; [|done].
    simpl. by intros f [= <-].
  - unfold UploadSection.handleSubmit.
    assert (Hkept : forall x, upload x = upload w ->
              forall f, UploadSection.selectedFile (upload x) = Some f ->
                        is_pdf f = true).
    { by intros x ->. }
    destruct (UploadSection.selectedFile (upload w)) as [file|] eqn:Hfile;
      [|split; [by apply Hkept|exact Hpend]].
    destruct (isProcessing (app w)); [split; [by apply Hkept|exact Hpend]|].
    simpl. split; [by apply Hkept|].
    apply Forall_app. split; [done|]. apply Forall_singleton. by apply Hsel.
  - by destruct (data (app w)).
  - unfold choice_click. repeat case_match; done.
  - destruct (pending w) as [|file rest] eqn:Hpw;
      [split; [exact Hsel | by rewrite Hpw]|].
    unfold exec. apply Forall_cons in Hpend as [_ Hrest].
    destruct (failed_or_succeeded o) as [Hfail|(r & -> & Hr)].
    + by destruct (resume_failed o
                     {| app := app w; upload := upload w; quiz := quiz w;
                        pending := rest; timers := timers w |} Hfail)
        as [msg ->].
    + by rewrite resume_succeeded.
  - by destruct (timers w).
Qed.

(** X16. As long as no file comes from the file dialog, every file that gets
    selected and every file that is uploaded has the MIME type
    application/pdf: the drop zone lets nothing else through. *)
Theorem drop_zone_admits_only_pdf (es : list Event) :
  Forall (fun e => from_dialog e = false) es ->
  let w := run es in
  (forall f, UploadSection.selectedFile (upload w) = Some f ->
             type f = "application/pdf")
  /\ Forall (fun f => type f = "application/pdf") (pending w).
Proof.
  intros Hes w.
  assert (H : (forall f, UploadSection.selectedFile (upload w) = Some f ->
                         is_pdf f = true)
              /\ Forall (fun f => is_pdf f = true) (pending w)).
  { subst w. induction es as [|e es IH] using rev_ind; [done|].
    rewrite Forall_app, Forall_singleton in Hes. destruct Hes as [Hes He].
    rewrite run_snoc. destruct (IH Hes) as [Hsel Hpend].
    by apply dispatch_pdf_only. }
  destruct H as [Hsel Hpend]. split.
  - intros f Hf. apply String.eqb_eq. by apply Hsel.
  - eapply Forall_impl; [exact Hpend|]. intros f. apply String.eqb_eq.
Qed.

End upload_facts.

(** ** The results along the events *)

Section result_facts.
Import App Trace.

Lemma question_views_lookup (w : World) (d : ProcessedData) (m : QuizMount)
    (i : nat) :
  data (app w) = Some d -> quiz w = Some m ->
  question_views w !! i
  = (q ← problems_at (problems d) (activeTab (app w)) !! i;
     st ← items m !! i;
     Some (QuizItem.render q i st)).
Proof.
  intros Hd Hm. unfold question_views, render. simpl. rewrite Hd, Hm. simpl.
  rewrite lookup_zip_with, question_blocks_lookup.
  by destruct (problems_at (problems d) (activeTab (app w)) !! i).
Qed.

(** X3. On every page reached with a stored response, the QuizItems on screen
    are the questions of the active tab in their order: the item at
    position [i] shows question [i] under the number [i + 1], with the
    choices of that question as its buttons, in their order. *)
Theorem question_views_in_order
    (es : list Event) (d : ProcessedData) (i : nat) (q : QuizQuestion) :
  let w := run es in
  data (app w) = Some d ->
  problems_at (problems d) (activeTab (app w)) !! i = Some q ->
  exists v,
    question_views w !! i = Some v
    /\ QuizItem.number v = i + 1
    /\ QuizItem.prompt v = question q
    /\ QuizItem.label <$> QuizItem.buttons v = choices q.
Proof.
  intros w Hd Hq. destruct (run_invariant es) as (Hm & _). fold w in Hm.
  unfold quiz_mounted in Hm. rewrite Hd in Hm.
  destruct (quiz w) as [m|] eqn:Hquiz; [|done]. destruct Hm as [_ Hlen].
  destruct (lookup_lt_is_Some_2 (items m) i) as [st Hst].
  { rewrite Hlen. by eapply lookup_lt_Some. }
  exists (QuizItem.render q i st).
  rewrite (question_views_lookup w d m i Hd Hquiz), Hq, Hst.
  split; [done|]. split; [done|]. split; [done|].
  apply buttons_follow_choices.
Qed.

(** X4. On every page reached, a click on a choice of the item at position
    [item] is a click on that QuizItem and on nothing else: the state cells
    of App and of the upload section, the pending requests and the timers
    are unchanged, the quiz stays mounted under its key with as many
    items, and every other item keeps its state. *)
Theorem choice_click_changes_one_item
    (es : list Event) (item choice : nat) (m : QuizMount) :
  let w := run es in
  let w' := dispatch w (ChoiceClick item choice) in
  quiz w = Some m ->
  (app w' = app w /\ upload w' = upload w
   /\ pending w' = pending w /\ timers w' = timers w)
  /\ exists m',
       quiz w' = Some m'
       /\ mount_key m' = mount_key m
       /\ length (items m') = length (items m)
       /\ (forall j, j <> item -> items m' !! j = items m !! j)
       /\ (forall d q st,
             data (app w) = Some d ->
             problems_at (problems d) (activeTab (app w)) !! item = Some q ->
             items m !! item = Some st ->
             items m' !! item = Some (QuizItem.click q st choice)).
Proof.
  intros w w' Hquiz. destruct (run_invariant es) as (Hm & _). fold w in Hm.
  pose proof Hm as Hmounted.
  unfold quiz_mounted in Hm. rewrite Hquiz in Hm.
  destruct (data (app w)) as [d|] eqn:Hd; [|done]. destruct Hm as [Hkey Hlen].
  assert (Hhandle :
            handle (ChoiceClick item choice) w
            = match problems_at (problems d) (activeTab (app w)) !! item,
                    items m !! item with
              | Some q, Some st =>
                  with_quiz
                    (Some {| mount_key := mount_key m;
                             items := <[item := QuizItem.click q st choice]>
                                        (items m) |}) w
              | _, _ => w
              end).
  { simpl. unfold choice_click, render. simpl. rewrite Hd, Hquiz. simpl.
    rewrite question_blocks_lookup.
    by destruct (problems_at (problems d) (activeTab (app w)) !! item). }
  subst w'. unfold dispatch. rewrite Hhandle. clear Hhandle.
  destruct (problems_at (problems d) (activeTab (app w)) !! item)
    as [q|] eqn:Hq.
  - destruct (items m !! item) as [st|] eqn:Hst.
    + rewrite commit_id.
      * split; [done|]. eexists. split; [done|]. simpl. split; [done|].
        split; [apply length_insert|]. split.
        -- intros j Hj. by apply list_lookup_insert_ne.
        -- intros d' q' st' Hd' Hq' Hst'. simplify_eq.
           apply list_lookup_insert_eq. by eapply lookup_lt_Some.
      * unfold quiz_mounted. simpl. rewrite Hd. split; [done|].
        by rewrite length_insert.
    + rewrite commit_id by done. split; [done|]. exists m.
      split; [done|]. split; [done|]. split; [done|]. split; [done|].
      intros d' q' st' Hd' Hq' Hst'. simplify_eq.
  - rewrite commit_id by done. split; [done|]. exists m.
    split; [done|]. split; [done|]. split; [done|]. split; [done|].
    intros d' q' st' Hd' Hq' Hst'. simplify_eq.
Qed.

(** X5. On every page reached, a click on the tab that is already the active
    one changes nothing: the quiz is not remounted and the answers stay. *)
Theorem active_tab_click_does_nothing (es : list Event) :
  let w := run es in
  dispatch w (TabClick (activeTab (app w))) = w.
Proof.
  intros w. destruct (run_invariant es) as (Hm & _). fold w in Hm.
  unfold dispatch, handle, render. simpl.
  destruct (data (app w)) as [d|] eqn:Hd; [|by apply commit_id].
  assert (Hw : exec (setActiveTab (activeTab (app w))) w = w).
  { clear. destruct w as [[p s dt tab] u qz pend tm]. done. }
  rewrite Hw. by apply commit_id.
Qed.

Lemma dispatch_without_success (e : Event) (w : World) :
  is_success e = false ->
  data (app w) = None /\ activeTab (app w) = basic /\ timers w = 0 ->
  data (app (dispatch w e)) = None
  /\ activeTab (app (dispatch w e)) = basic
  /\ timers (dispatch w e) = 0.
Proof.
  intros He (Hd & Htab & Htm). unfold dispatch.
  destruct (commit_frame (handle e w)) as (-> & _ & _ & ->).
  destruct e as [t|files|files| | | |o|]; simpl; try done.
  - by destruct (isProcessing (app w)).
  - unfold UploadSection.handleSubmit.
    by destruct (UploadSection.selectedFile (upload w)), (isProcessing (app w)).
  - by rewrite Hd.
  - unfold choice_click. repeat case_match; done.
  - destruct (pending w) as [|file rest]; [done|]. unfold exec.
    simpl in He. apply negb_false_iff in He.
    by destruct (resume_failed o
                   {| app := app w; upload := upload w; quiz := quiz w;
                      pending := rest; timers := timers w |} He)
      as [msg ->].
  - by rewrite Htm.
Qed.

(** X6. Until an upload has settled on the success path there is no stored
    response: no quiz and no summary is rendered, no QuizItem is mounted,
    the active tab is the basic one and no timer is armed. *)
Theorem no_results_before_first_success (es : list Event) :
  Forall (fun e => is_success e = false) es ->
  let w := run es in
  data (app w) = None
  /\ results (render (app w) (upload w)) = None
  /\ quiz w = None
  /\ question_views w = []
  /\ activeTab (app w) = basic
  /\ timers w = 0.
Proof.
  intros Hes w.
  assert (H : data (app w) = None /\ activeTab (app w) = basic /\ timers w = 0).
  { subst w. induction es as [|e es IH] using rev_ind; [done|].
    rewrite Forall_app, Forall_singleton in Hes. destruct Hes as [Hes He].
    rewrite run_snoc. apply dispatch_without_success; [done|]. by apply IH. }
  destruct H as (Hd & Htab & Htm).
  destruct (run_invariant es) as (Hm & _). fold w in Hm.
  unfold quiz_mounted in Hm. rewrite Hd in Hm.
  destruct (quiz w) as [m|] eqn:Hquiz; [done|].
  unfold question_views, render. simpl. by rewrite Hd.
Qed.

(** The page after the pending upload has settled with a truthy [ok]. *)
Lemma success_page (es : list Event) (r : JsonResult) :
  let w := run es in
  let n := length (problems_at (problems (result_data r)) (activeTab (app w))) in
  isProcessing (app w) = true ->
  ok (result_data r) = true ->
  dispatch w (UploadSettles (json_resolved (json_object r)))
  = {| app := {| isProcessing := false;
                 status := "완료! 생성된 문제와 요약을 확인하세요.";
                 data := Some (result_data r);
                 activeTab := activeTab (app w) |};
       upload := upload w;
       quiz := Some {| mount_key := activeTab (app w);
                       items := match quiz w with
                                | Some m => keep_items n (items m)
                                | None => fresh_items n
                                end |};
       pending := [];
       timers := S (timers w) |}.
Proof.
  intros w n Hproc Hok.
  destruct (run_invariant es) as (Hm & Hp & _). fold w in Hm, Hp.
  destruct Hp as [[Hidle _]|[_ [file Hpend]]]; [congruence|].
  unfold dispatch.
  rewrite (handle_settles _ w file [] Hpend). unfold exec.
  rewrite resume_succeeded by done. unfold commit, with_quiz. simpl.
  f_equal.
  unfold reconcile, render. simpl. rewrite question_blocks_length. fold n.
  unfold quiz_mounted in Hm.
  destruct (quiz w) as [m|]; [|done].
  destruct (data (app w)); [|done]. destruct Hm as [-> _].
  by rewrite QuizTab_eqb_refl.
Qed.

(** X7. On every page reached with an upload in progress, a response with a
    truthy [ok] replaces the stored response, whatever was stored; the
    completion text is set, [isProcessing] is cleared, one timer is armed
    and no request is pending. The active tab stays, and the quiz stays
    mounted: an item keeps its state while its position is still rendered,
    and further positions get fresh items. *)
Theorem successful_upload_stores_response (es : list Event) (r : JsonResult) :
  let w := run es in
  let w' := dispatch w (UploadSettles (json_resolved (json_object r))) in
  let n := length (problems_at (problems (result_data r)) (activeTab (app w))) in
  isProcessing (app w) = true ->
  ok (result_data r) = true ->
  app w' = {| isProcessing := false;
              status := "완료! 생성된 문제와 요약을 확인하세요.";
              data := Some (result_data r);
              activeTab := activeTab (app w) |}
  /\ pending w' = [] /\ timers w' = S (timers w) /\ upload w' = upload w
  /\ quiz w' = Some {| mount_key := activeTab (app w);
                       items := match quiz w with
                                | Some m => keep_items n (items m)
                                | None => fresh_items n
                                end |}.
Proof.
  intros w w' n Hproc Hok. subst w' n w.
  by rewrite (success_page es r Hproc Hok).
Qed.

(** X8. An answer outlives the question it was given to: when a new response
    is stored while the same tab is active, the item at a position that is
    rendered again keeps its selection, and is rendered against the new
    question at that position, so that the verdict compares the old
    selection with the new [answer_index]. *)
Theorem answers_carry_over_to_new_response
    (es : list Event) (r : JsonResult) (m : QuizMount) (i : nat)
    (st : QuizItem.State) (q : QuizQuestion) :
  let w := run es in
  let w' := dispatch w (UploadSettles (json_resolved (json_object r))) in
  isProcessing (app w) = true ->
  ok (result_data r) = true ->
  quiz w = Some m -> items m !! i = Some st ->
  problems_at (problems (result_data r)) (activeTab (app w)) !! i = Some q ->
  question_views w' !! i = Some (QuizItem.render q i st).
Proof.
  intros w w' Hproc Hok Hquiz Hst Hq. subst w' w.
  rewrite (success_page es r Hproc Hok), Hquiz.
  erewrite question_views_lookup; [|done..].
  simpl. rewrite Hq. simpl.
  assert (Hkept : keep_items
                    (length (problems_at (problems (result_data r))
                                         (activeTab (app (run es)))))
                    (items m) !! i
                  = Some st).
  { unfold keep_items. apply lookup_lt_Some in Hq as Hi.
    rewrite lookup_app_l.
    - by rewrite lookup_take_lt.
    - apply lookup_lt_Some in Hst. rewrite length_take. lia. }
  by rewrite Hkept.
Qed.

(** X9. On every page reached with a timer armed, the timer that fires clears
    the status, whatever it shows by then (the completion text, or the
    in-progress or error text of a later upload), removes the banner, and
    changes nothing else. *)
Theorem timer_clears_any_status (es : list Event) :
  let w := run es in
  let w' := dispatch w TimerFires in
  0 < timers w ->
  app w' = {| isProcessing := isProcessing (app w);
              status := EmptyString;
              data := data (app w);
              activeTab := activeTab (app w) |}
  /\ banner_of w' = None
  /\ S (timers w') = timers w
  /\ upload w' = upload w /\ quiz w' = quiz w /\ pending w' = pending w.
Proof.
  intros w w' Htm. destruct (run_invariant es) as (Hm & _). fold w in Hm.
  destruct (timers w) as [|n] eqn:Hn; [lia|].
  assert (Hhandle :
            handle TimerFires w
            = {| app := {| isProcessing := isProcessing (app w);
                           status := EmptyString;
                           data := data (app w);
                           activeTab := activeTab (app w) |};
                 upload := upload w; quiz := quiz w; pending := pending w;
                 timers := n |}).
  { simpl. by rewrite Hn. }
  subst w'. unfold dispatch. rewrite Hhandle, commit_id; [by repeat split|].
  exact Hm.
Qed.

End result_facts.

(** ** SummarySection *)

(** X19. The summary is shown verbatim when it is not empty, and replaced by the
    placeholder when it is; the link to the source is shown for a URL that
    is present and not empty, with that URL, and not otherwise. *)
Theorem summary_shows_html_and_link (summaryHtml : string)
    (summaryUrl : option string) :
  let v := SummarySection.render summaryHtml summaryUrl in
  (SummarySection.article v = None <-> summaryHtml = EmptyString)
  /\ (forall html, SummarySection.article v = Some html -> html = summaryHtml)
  /\ (forall url, SummarySection.source_link v = Some url
                  <-> summaryUrl = Some url /\ url <> EmptyString).
Proof.
  unfold SummarySection.render. simpl. split; [|split].
  - destruct summaryHtml; simpl; split; congruence.
  - intros html. destruct summaryHtml; simpl; congruence.
  - intros url. destruct summaryUrl as [[|c u]|]; simpl; split;
      try congruence; try (intros [? ?]; congruence).
    intros [= <-]. done.
Qed.

(** ** The further properties on the sample scenarios *)

Section scenarios.
Import App Trace.

Lemma every_failure_is_shown_as_error_witness :
  failed Sample.failure = true
  /\ exists w' msg,
       handleFileUpload_resume Sample.failure (run Sample.uploading_page)
       = (Normal tt, w')
       /\ status (app w') = "오류: " +:+ msg
       /\ msg = "PDF has no text".
Proof.
  split; [reflexivity|].
  destruct (every_failure_is_shown_as_error (run Sample.uploading_page)
              Sample.failure eq_refl)
    as (w' & msg & Hrun & Happ & _ & _ & Hmsg).
  exists w', msg. split; [exact Hrun|]. split; [|exact Hmsg].
  rewrite Happ. reflexivity.
Defined.

Lemma file_selection_events_stay_local_witness :
  selects_file (Drop [Sample.other_pdf]) = true
  /\ app (dispatch (run Sample.uploading_page) (Drop [Sample.other_pdf]))
     = app (run Sample.uploading_page).
Proof.
  split; [reflexivity|].
  exact (proj1 (proj1 (file_selection_events_stay_local Sample.uploading_page
                         (Drop [Sample.other_pdf]) eq_refl))).
Defined.

Lemma selected_file_is_never_cleared_witness :
  is_Some (UploadSection.selectedFile (upload (run Sample.uploading_page)))
  /\ is_Some (UploadSection.selectedFile
                (upload (run (Sample.uploading_page
                              ++ [UploadSettles Sample.success; Drop []])))).
Proof.
  assert (H : is_Some (UploadSection.selectedFile
                         (upload (run Sample.uploading_page)))).
  { by exists Sample.lecture_pdf. }
  split; [exact H|].
  exact (selected_file_is_never_cleared Sample.uploading_page
           [UploadSettles Sample.success; Drop []] H).
Defined.

Lemma submit_uploads_selected_file_witness :
  isProcessing (app (run Sample.answered_page)) = false
  /\ UploadSection.selectedFile (upload (run Sample.answered_page))
     = Some Sample.lecture_pdf
  /\ pending (dispatch (run Sample.answered_page) Submit) = [Sample.lecture_pdf].
Proof.
  split; [reflexivity|]. split; [reflexivity|].
  exact (proj1 (submit_uploads_selected_file Sample.answered_page
                  Sample.lecture_pdf eq_refl eq_refl)).
Defined.

Lemma submit_without_file_does_nothing_witness :
  UploadSection.selectedFile (upload (run [Drop [Sample.notes_txt]])) = None
  /\ dispatch (run [Drop [Sample.notes_txt]]) Submit
     = run [Drop [Sample.notes_txt]].
Proof.
  split; [reflexivity|].
  exact (submit_without_file_does_nothing [Drop [Sample.notes_txt]] eq_refl).
Defined.

Lemma drop_zone_admits_only_pdf_witness :
  Forall (fun e => from_dialog e = false) Scenario.dropped_only
  /\ Forall (fun f => type f = "application/pdf")
            (pending (run Scenario.dropped_only)).
Proof.
  assert (H : Forall (fun e => from_dialog e = false) Scenario.dropped_only).
  { repeat constructor. }
  split; [exact H|].
  exact (proj2 (drop_zone_admits_only_pdf Scenario.dropped_only H)).
Defined.

Lemma question_views_in_order_witness :
  data (app (run Sample.answered_page)) = Some Sample.response
  /\ problems_at (problems Sample.response)
                 (activeTab (app (run Sample.answered_page))) !! 0
     = Some Sample.two_plus_two
  /\ exists v,
       question_views (run Sample.answered_page) !! 0 = Some v
       /\ QuizItem.number v = 0 + 1
       /\ QuizItem.prompt v = question Sample.two_plus_two
       /\ QuizItem.label <$> QuizItem.buttons v = choices Sample.two_plus_two.
Proof.
  split; [reflexivity|]. split; [reflexivity|].
  exact (question_views_in_order Sample.answered_page Sample.response 0
           Sample.two_plus_two eq_refl eq_refl).
Defined.

Lemma choice_click_changes_one_item_witness :
  quiz (run Sample.answered_page)
  = Some {| mount_key := basic; items := [QuizItem.answered 1] |}
  /\ app (dispatch (run Sample.answered_page) (ChoiceClick 0 0))
     = app (run Sample.answered_page).
Proof.
  split; [reflexivity|].
  exact (proj1 (proj1 (choice_click_changes_one_item Sample.answered_page 0 0
                         {| mount_key := basic;
                            items := [QuizItem.answered 1] |} eq_refl))).
Defined.

Lemma no_results_before_first_success_witness :
  Forall (fun e => is_success e = false) Scenario.failed_first
  /\ data (app (run Scenario.failed_first)) = None.
Proof.
  assert (H : Forall (fun e => is_success e = false) Scenario.failed_first).
  { repeat constructor. }
  split; [exact H|].
  exact (proj1 (no_results_before_first_success Scenario.failed_first H)).
Defined.

Lemma successful_upload_stores_response_witness :
  isProcessing (app (run Scenario.resubmitted_page)) = true
  /\ ok (result_data Scenario.second_result) = true
  /\ pending (dispatch (run Scenario.resubmitted_page)
                (UploadSettles (json_resolved
                                  (json_object Scenario.second_result)))) = [].
Proof.
  split; [reflexivity|]. split; [reflexivity|].
  exact (proj1 (proj2 (successful_upload_stores_response
                         Scenario.resubmitted_page Scenario.second_result
                         eq_refl eq_refl))).
Defined.

(** The answer given to "2+2?" is shown on "Capital of France?". *)
Lemma answers_carry_over_to_new_response_witness :
  isProcessing (app (run Scenario.resubmitted_page)) = true
  /\ ok (result_data Scenario.second_result) = true
  /\ quiz (run Scenario.resubmitted_page)
     = Some {| mount_key := basic; items := [QuizItem.answered 1] |}
  /\ question_views
       (dispatch (run Scenario.resubmitted_page)
          (UploadSettles (json_resolved (json_object Scenario.second_result))))
     !! 0
     = Some (QuizItem.render Sample.capital 0 (QuizItem.answered 1)).
Proof.
  split; [reflexivity|]. split; [reflexivity|]. split; [reflexivity|].
  exact (answers_carry_over_to_new_response Scenario.resubmitted_page
           Scenario.second_result
           {| mount_key := basic; items := [QuizItem.answered 1] |}
           0 (QuizItem.answered 1) Sample.capital
           eq_refl eq_refl eq_refl eq_refl eq_refl).
Defined.

(** The timer of the first upload clears the error of the second. *)
Lemma timer_clears_any_status_witness :
  0 < timers (run Scenario.failed_after_success)
  /\ status (app (run Scenario.failed_after_success)) = "오류: PDF has no text"
  /\ banner_of (dispatch (run Scenario.failed_after_success) TimerFires) = None.
Proof.
  assert (H : 0 < timers (run Scenario.failed_after_success)).
  { apply Nat.lt_0_1. }
  split; [exact H|]. split; [reflexivity|].
  exact (proj1 (proj2 (timer_clears_any_status
                         Scenario.failed_after_success H))).
Defined.

End scenarios.

(** ** Drops and the file dialog *)

Section file_sources.
Import App Trace.

(** X17. On every page reached, the drop of files whose first one is not a PDF
    is ignored: it has the effect of a drop without files. The selected file
    and the state cells of App, and with them the status, are unchanged;
    the drag highlight ends. The files after the first never matter. *)
Theorem non_pdf_drop_is_ignored
    (es : list Event) (file : File) (files : list File) :
  let w := run es in
  let w' := dispatch w (Drop (file :: files)) in
  type file <> "application/pdf" ->
  w' = dispatch w (Drop [])
  /\ UploadSection.selectedFile (upload w')
     = UploadSection.selectedFile (upload w)
  /\ UploadSection.dragActive (upload w') = false
  /\ app w' = app w
  /\ w' = dispatch w (Drop [file]).
Proof.
  intros w w' Hty.
  assert (Hne : String.eqb (type file) "application/pdf" = false).
  { by apply String.eqb_neq. }
  destruct (run_invariant es) as (Hm & _). fold w in Hm.
  assert (Hdrop : forall rest,
            dispatch w (Drop (file :: rest))
            = with_upload (UploadSection.setDragActive false) w).
  { intros rest. unfold dispatch.
    assert (Hh : handle (Drop (file :: rest)) w
                 = with_upload (UploadSection.setDragActive false) w).
    { simpl. unfold UploadSection.handleDrop. simpl. by rewrite Hne. }
    rewrite Hh. by apply commit_id. }
  assert (Hnone : dispatch w (Drop [])
                  = with_upload (UploadSection.setDragActive false) w).
  { unfold dispatch.
    change (handle (Drop []) w)
      with (with_upload (UploadSection.setDragActive false) w).
    by apply commit_id. }
  subst w'. rewrite (Hdrop files), (Hdrop []), Hnone. done.
Qed.

(** X18. On every page reached, the file dialog has no effect while an upload
    is in progress, and none when it is closed without a file. Otherwise
    its first file becomes the selected one, whatever its MIME type, and
    nothing else changes. *)
Theorem file_dialog_selects_first_file (es : list Event) (files : list File) :
  let w := run es in
  let w' := dispatch w (FileChange files) in
  match isProcessing (app w), files with
  | true, _ | false, [] => w' = w
  | false, file :: _ =>
      upload w' = {| UploadSection.dragActive :=
                       UploadSection.dragActive (upload w);
                     UploadSection.selectedFile := Some file |}
      /\ app w' = app w /\ quiz w' = quiz w
      /\ pending w' = pending w /\ timers w' = timers w
  end.
Proof.
  intros w w'. destruct (run_invariant es) as (Hm & _). fold w in Hm.
  subst w'. unfold dispatch.
  destruct (isProcessing (app w)) eqn:Hproc.
  - assert (Hh : handle (FileChange files) w = w).
    { simpl. by rewrite Hproc. }
    rewrite Hh. by apply commit_id.
  - destruct files as [|file files].
    + assert (Hh : handle (FileChange []) w = w).
      { simpl. rewrite Hproc. clear. by destruct w as [s [da sf] qz pend tm]. }
      rewrite Hh. by apply commit_id.
    + assert (Hh : handle (FileChange (file :: files)) w
                   = with_upload (UploadSection.setSelectedFile file) w).
      { simpl. by rewrite Hproc. }
      rewrite Hh, commit_id; done.
Qed.

Lemma non_pdf_drop_is_ignored_witness :
  type Sample.notes_txt <> "application/pdf"
  /\ UploadSection.selectedFile
       (upload (dispatch (run Sample.uploading_page)
                  (Drop [Sample.notes_txt; Sample.other_pdf])))
     = UploadSection.selectedFile (upload (run Sample.uploading_page)).
Proof.
  assert (H : type Sample.notes_txt <> "application/pdf") by discriminate.
  split; [exact H|].
  exact (proj1 (proj2 (non_pdf_drop_is_ignored Sample.uploading_page
                         Sample.notes_txt [Sample.other_pdf] H))).
Defined.

End file_sources.
